(** * RegressaoLinearManual: gradient-descent linear regression

    A shallow embedding of [regressao_linear.py].  The class
    [RegressaoLinearManual] becomes a record [modelo] holding the
    attributes of [self]; each method becomes a function from the model
    state to the new state and either a value or the exception raised.

    The numbers of the program are NumPy/Python binary64 floats.  The
    embedding is written once over an interface [Aritmetica] of the
    operations the program uses, with the instance [binary64], the
    kernel's IEEE 754 floats, which the program runs on: what is
    proved for every [Aritmetica] holds of the program, rounding,
    overflow and NaN included.

    The second part embeds [analisador_acoes.py], the caller of the
    engine: what the network and the random source did comes in as
    arguments, and printing and plotting are left out. *)

From Stdlib Require Import ZArith List Floats Ascii String.
From stdpp Require Import base option list gmap strings.

(** ** The arithmetic of the program *)

Class Aritmetica (F : Type) := {
  f0 : F;                       (* 0.0 *)
  f1 : F;                       (* 1.0 *)
  f001 : F;                     (* the literal 0.01 *)
  fadd : F -> F -> F;
  fsub : F -> F -> F;
  fmul : F -> F -> F;
  fdiv : F -> F -> F;           (* float / float: never raises in NumPy *)
  fabs : F -> F;
  fsqrt : F -> F;
  flt : F -> F -> bool;         (* a < b *)
  feq : F -> F -> bool;         (* a == b *)
  of_int : Z -> F               (* conversion of a Python int *)
}.

Declare Scope arit_scope.
Delimit Scope arit_scope with ar.
Infix "+" := fadd : arit_scope.
Infix "-" := fsub : arit_scope.
Infix "*" := fmul : arit_scope.
Infix "/" := fdiv : arit_scope.
Infix "<?" := flt : arit_scope.
Infix "=?" := feq : arit_scope.
(* [a != b] is the negation of [a == b], also on NaN *)
Notation "a !=? b" := (negb (feq a b)) (at level 70) : arit_scope.

(** IEEE 754 binary64, the floats of Python and NumPy. *)
#[export] Instance binary64 : Aritmetica float := {
  f0 := 0%float;
  f1 := 1%float;
  f001 := 0x1.47ae147ae147bp-7%float;
  fadd := PrimFloat.add;
  fsub := PrimFloat.sub;
  fmul := PrimFloat.mul;
  fdiv := PrimFloat.div;
  fabs := PrimFloat.abs;
  fsqrt := PrimFloat.sqrt;
  flt := PrimFloat.ltb;
  feq := PrimFloat.eqb;
  of_int := fun z =>
    if (z <? 0)%Z then PrimFloat.opp (PrimFloat.of_uint63 (Uint63.of_Z (- z)))
    else PrimFloat.of_uint63 (Uint63.of_Z z)
}.

(** ** Exceptions and results *)

Inductive excecao : Type :=
  | ValueError (msg : string)
  | ZeroDivisionError
  | IndexError
  | KeyError (chave : string).

Inductive resultado (A : Type) : Type :=
  | Valor (a : A)
  | Erro (e : excecao).
Arguments Valor {A} a.
Arguments Erro {A} e.

(** Sequencing: the first exception raised ends the computation. *)
#[export] Instance resultado_bind : MBind resultado := fun A B k r =>
  match r with
  | Valor a => k a
  | Erro e => Erro e
  end.

(** The message of [prever] on a model without coefficients. *)
Definition msg_nao_treinado : string :=
  "Modelo não foi treinado ainda. Execute o método treinar() primeiro.".

(** The message of NumPy when two shapes do not broadcast (the shapes
    it prints after it are left out). *)
Definition msg_broadcast : string :=
  "operands could not be broadcast together".

Section Regressao.

Context {F : Type} `{Aritmetica F}.
Local Open Scope arit_scope.

(** ** The NumPy operations used, on one-dimensional arrays *)

(** [a op b] on two arrays: equal shapes go elementwise, a shape [(1,)]
    is stretched to the other, anything else raises [ValueError]. *)
Definition difundir (op : F -> F -> F) (a b : list F) : resultado (list F) :=
  if (length a =? length b)%nat then Valor (zip_with op a b)
  else match a, b with
       | [x], _ => Valor (map (op x) b)
       | _, [y] => Valor (map (fun x => op x y) a)
       | _, _ => Erro (ValueError msg_broadcast)
       end.

(** [np.sum] on a contiguous array of floats adds as NumPy's pairwise
    routine does.  Fewer than 8 elements are added one after the
    other, starting at [0.0].  From 8 to 128, the first eight start
    eight running sums, each further full group of eight is added to
    them place by place, the eight sums are added in pairs, and the
    elements left over come last, one after the other. *)
Fixpoint acumular_8 (k : nat) (r resto : list F) : list F * list F :=
  match k with
  | O => (r, resto)
  | S k' => acumular_8 k' (zip_with fadd r (take 8 resto)) (drop 8 resto)
  end.

Definition soma_bloco (a : list F) : F :=
  let '(r, resto) := acumular_8 (length a / 8 - 1) (take 8 a) (drop 8 a) in
  match r with
  | [r0; r1; r2; r3; r4; r5; r6; r7] =>
    fold_left fadd resto (((r0 + r1) + (r2 + r3)) + ((r4 + r5) + (r6 + r7)))
  | _ => fold_left fadd a f0
  end.

(** More than 128 elements are cut in two, the first part of half the
    length brought down to a multiple of 8, and the sums of the parts
    are added.  [combustivel] bounds the depth of the cuts: the length
    of the array is enough.  The reduction adds the result to the
    [0.0] it starts from. *)
Fixpoint soma_pares (combustivel : nat) (a : list F) : F :=
  let n := length a in
  if (n <? 8)%nat then fold_left fadd a f0
  else if (n <=? 128)%nat then soma_bloco a
  else match combustivel with
       | O => fold_left fadd a f0
       | S c =>
         let n2 := (n / 2 - (n / 2) mod 8)%nat in
         soma_pares c (take n2 a) + soma_pares c (drop n2 a)
       end.

Definition np_sum (a : list F) : F := f0 + soma_pares (length a) a.

(** [np.mean]: the sum divided by the number of elements. *)
Definition np_mean (a : list F) : F := np_sum a / of_int (Z.of_nat (length a)).

(** [a ** 2], elementwise. *)
Definition quadrado (a : list F) : list F := map (fun v => v * v) a.

(** [np.std]: the square root of the mean squared deviation. *)
Definition np_std (a : list F) : F :=
  let m := np_mean a in
  fsqrt (np_mean (quadrado (map (fun v => v - m) a))).

(** ** The model: the attributes of [self] *)

Record modelo : Type := Modelo {
  taxa_aprendizado : F;
  max_iteracoes : Z;
  tolerancia : F;
  coeficientes : gmap string F;
  historico_custo : list F
}.

(** A method: from [self] to the new [self] and a value or an exception. *)
Definition metodo (A : Type) : Type := modelo -> modelo * resultado A.

(** [__init__] *)
Definition init (taxa : F) (max_it : Z) (tol : F) : modelo :=
  Modelo taxa max_it tol ∅ [].

Definition anexar_custo (self : modelo) (c : F) : modelo :=
  Modelo (taxa_aprendizado self) (max_iteracoes self) (tolerancia self)
         (coeficientes self) (historico_custo self ++ [c]).

Definition guardar_coeficientes (self : modelo) (d : gmap string F) : modelo :=
  Modelo (taxa_aprendizado self) (max_iteracoes self) (tolerancia self)
         d (historico_custo self).

(** [not d] on a dict *)
Definition dict_vazio (d : gmap string F) : bool :=
  match map_to_list d with
  | [] => true
  | _ :: _ => false
  end.

(** [1 / k] on Python ints: [ZeroDivisionError] when [k] is 0. *)
Definition inverso_int (k : Z) : resultado F :=
  if (k =? 0)%Z then Erro ZeroDivisionError else Valor (of_int 1 / of_int k).

(** [calcular_custo] *)
Definition calcular_custo (y_real y_previsto : list F) : resultado F :=
  let m := Z.of_nat (length y_real) in
  c ← inverso_int (2 * m);
  d ← difundir fsub y_previsto y_real;
  Valor (c * np_sum (quadrado d)).

(** [calcular_gradientes] *)
Definition calcular_gradientes (X y_real y_previsto : list F)
  : resultado (F * F) :=
  let m := Z.of_nat (length y_real) in
  c0 ← inverso_int m;
  d0 ← difundir fsub y_previsto y_real;
  let gradiente_intercepto := c0 * np_sum d0 in
  c1 ← inverso_int m;
  d1 ← difundir fsub y_previsto y_real;
  p ← difundir fmul d1 X;
  let gradiente_inclinacao := c1 * np_sum p in
  Valor (gradiente_intercepto, gradiente_inclinacao).

(** The convergence test of [treinar]. *)
Definition convergiu (tol novo_intercepto intercepto nova_inclinacao inclinacao : F)
  : bool :=
  (fabs (novo_intercepto - intercepto) <? tol)
  && (fabs (nova_inclinacao - inclinacao) <? tol).

(** The loop [for iteracao in range(self.max_iteracoes)] of [treinar],
    with [n] iterations left. *)
Fixpoint laco (n : nat) (X_norm y : list F) (intercepto inclinacao : F)
  (self : modelo) : modelo * resultado (F * F) :=
  match n with
  | O => (self, Valor (intercepto, inclinacao))
  | S n' =>
    let y_previsto := map (fun v => intercepto + v) (map (fun v => inclinacao * v) X_norm) in
    match calcular_custo y y_previsto with
    | Erro e => (self, Erro e)
    | Valor custo_atual =>
      let self := anexar_custo self custo_atual in
      match calcular_gradientes X_norm y y_previsto with
      | Erro e => (self, Erro e)
      | Valor (grad_intercepto, grad_inclinacao) =>
        let novo_intercepto := intercepto - taxa_aprendizado self * grad_intercepto in
        let nova_inclinacao := inclinacao - taxa_aprendizado self * grad_inclinacao in
        if convergiu (tolerancia self) novo_intercepto intercepto
                     nova_inclinacao inclinacao
        then (self, Valor (intercepto, inclinacao))
        else laco n' X_norm y novo_intercepto nova_inclinacao self
      end
    end
  end.

(** The normalisation of [X] at the start of [treinar]. *)
Definition normalizar (X : list F) : list F :=
  let X_mean := np_mean X in
  let X_std := np_std X in
  if X_std !=? f0 then map (fun v => (v - X_mean) / X_std) X
  else map (fun v => v - X_mean) X.

(** The coefficients brought back to the scale of [X]:
    (intercepto_original, inclinacao_original). *)
Definition desnormalizar (X_mean X_std intercepto inclinacao : F) : F * F :=
  if X_std !=? f0
  then (intercepto - (inclinacao * X_mean / X_std), inclinacao / X_std)
  else (intercepto - (inclinacao * X_mean), inclinacao).

(** The dict stored in [self.coeficientes]. *)
Definition dict_coeficientes (intercepto_original inclinacao_original X_mean X_std : F)
  : gmap string F :=
  <["intercepto" := intercepto_original]>
  (<["inclinacao" := inclinacao_original]>
  (<["X_mean" := X_mean]>
  (<["X_std" := X_std]> ∅))).

(** [treinar].  [z0] and [z1] are the two draws of [np.random.randn()]. *)
Definition treinar (X y : list F) (z0 z1 : F) : metodo (gmap string F) :=
  fun self =>
  let X_mean := np_mean X in
  let X_std := np_std X in
  let X_norm := normalizar X in
  let intercepto := z0 * f001 in
  let inclinacao := z1 * f001 in
  match laco (Z.to_nat (max_iteracoes self)) X_norm y intercepto inclinacao self with
  | (self, Erro e) => (self, Erro e)
  | (self, Valor (intercepto, inclinacao)) =>
    let '(intercepto_original, inclinacao_original) :=
      desnormalizar X_mean X_std intercepto inclinacao in
    let self := guardar_coeficientes self
      (dict_coeficientes intercepto_original inclinacao_original X_mean X_std) in
    (* print(f"Custo final: {self.historico_custo[-1]:.6f}") *)
    match last (historico_custo self) with
    | None => (self, Erro IndexError)
    | Some _ => (self, Valor (coeficientes self))
    end
  end.

(** [d[k]] on a dict *)
Definition item (d : gmap string F) (k : string) : resultado F :=
  match d !! k with
  | Some v => Valor v
  | None => Erro (KeyError k)
  end.

(** [prever] *)
Definition prever (X : list F) : metodo (list F) := fun self =>
  if dict_vazio (coeficientes self)
  then (self, Erro (ValueError msg_nao_treinado))
  else (self,
        intercepto ← item (coeficientes self) "intercepto";
        inclinacao ← item (coeficientes self) "inclinacao";
        Valor (map (fun v => intercepto + v) (map (fun v => inclinacao * v) X))).

(** [calcular_r_quadrado], on two NumPy arrays as its docstring has
    them; [self] is not read. *)
Definition calcular_r_quadrado (y_real y_previsto : list F) : metodo F :=
  fun self =>
  (self,
   d ← difundir fsub y_real y_previsto;
   let ss_res := np_sum (quadrado d) in
   let media := np_mean y_real in
   let ss_tot := np_sum (quadrado (map (fun v => v - media) y_real)) in
   if ss_tot =? f0 then Valor f1 else Valor (f1 - ss_res / ss_tot)).

(** [obter_metricas_modelo] *)
Definition obter_metricas_modelo (X y_real : list F) : metodo (gmap string F) :=
  fun self =>
  match prever X self with
  | (self, Erro e) => (self, Erro e)
  | (self, Valor y_previsto) =>
    match calcular_r_quadrado y_real y_previsto self with
    | (self, Erro e) => (self, Erro e)
    | (self, Valor r2) =>
      (self,
       d1 ← difundir fsub y_real y_previsto;
       let eqm := np_mean (quadrado d1) in
       d2 ← difundir fsub y_real y_previsto;
       let eam := np_mean (map fabs d2) in
       d3 ← difundir fsub y_real y_previsto;
       let reqm := fsqrt (np_mean (quadrado d3)) in
       Valor (<["r_quadrado" := r2]>
              (<["erro_quadratico_medio" := eqm]>
              (<["erro_absoluto_medio" := eam]>
              (<["raiz_erro_quadratico_medio" := reqm]> ∅)))))
    end
  end.

(** ** Vocabulary of the statements *)

(** [intercepto + inclinacao * X], the predictions on an array. *)
Definition reta (intercepto inclinacao : F) (X : list F) : list F :=
  map (fun v => intercepto + v) (map (fun v => inclinacao * v) X).

(** Two shapes that broadcast: equal, or one of them [(1,)]. *)
Definition difundem (a b : list F) : Prop :=
  length a = length b \/ length a = 1%nat \/ length b = 1%nat.

(** A new instance with the hyperparameters of [self]. *)
Definition reiniciar (self : modelo) : modelo :=
  init (taxa_aprendizado self) (max_iteracoes self) (tolerancia self).

(** A model whose dict of coefficients was stored by [treinar]. *)
Definition treinado (self : modelo) : Prop :=
  exists b0 b1 xm xs, coeficientes self = dict_coeficientes b0 b1 xm xs.

(** [k] full iterations of the loop, none of which converged or raised:
    the coefficients and the model after them. *)
Fixpoint avancar (k : nat) (X_norm y : list F) (intercepto inclinacao : F)
  (self : modelo) : option (F * F * modelo) :=
  match k with
  | O => Some (intercepto, inclinacao, self)
  | S k' =>
    let y_previsto := reta intercepto inclinacao X_norm in
    match calcular_custo y y_previsto, calcular_gradientes X_norm y y_previsto with
    | Valor custo_atual, Valor (grad_intercepto, grad_inclinacao) =>
      let novo_intercepto := intercepto - taxa_aprendizado self * grad_intercepto in
      let nova_inclinacao := inclinacao - taxa_aprendizado self * grad_inclinacao in
      if convergiu (tolerancia self) novo_intercepto intercepto
                   nova_inclinacao inclinacao
      then None
      else avancar k' X_norm y novo_intercepto nova_inclinacao
                   (anexar_custo self custo_atual)
    | _, _ => None
    end
  end.

(** The calls a client can make on an instance, and their effect on it. *)
Inductive chamada : Type :=
  | Treinar (X y : list F) (z0 z1 : F)
  | Prever (X : list F)
  | CalcularRQuadrado (y_real y_previsto : list F)
  | ObterMetricasModelo (X y_real : list F).

Definition executar (c : chamada) (self : modelo) : modelo :=
  match c with
  | Treinar X y z0 z1 => (treinar X y z0 z1 self).1
  | Prever X => (prever X self).1
  | CalcularRQuadrado y_real y_previsto =>
      (calcular_r_quadrado y_real y_previsto self).1
  | ObterMetricasModelo X y_real => (obter_metricas_modelo X y_real self).1
  end.

Definition executar_todas (cs : list chamada) (self : modelo) : modelo :=
  fold_left (fun s c => executar c s) cs self.

End Regressao.

Arguments modelo F : clear implicits.
Arguments metodo F A : clear implicits.
Arguments chamada F : clear implicits.

(** ** Vocabulary of the further statements *)

Section VocabularioMotor.

Context {F : Type} `{Aritmetica F}.
Local Open Scope arit_scope.

(** A call of [treinar]. *)
Definition e_treinar (c : chamada F) : bool :=
  match c with
  | Treinar _ _ _ _ => true
  | _ => false
  end.

End VocabularioMotor.

(** ** The analyser: [analisador_acoes.py] *)

(** The literal [1e-6], the default tolerance of [RegressaoLinearManual]. *)
Class Padrao (F : Type) := tolerancia_padrao : F.

#[export] Instance padrao_binary64 : Padrao float :=
  0x1.0c6f7a0b5ed8dp-20%float.

(** What the analyser raises: [Exception(msg)] of its own, or what the
    engine raised. *)
Inductive excecao_analise : Type :=
  | Exception (msg : string)
  | DoMotor (e : excecao).

Inductive desfecho (A : Type) : Type :=
  | Retorna (a : A)
  | Levanta (e : excecao_analise).
Arguments Retorna {A} a.
Arguments Levanta {A} e.

(** [str.replace(".", "_")] *)
Fixpoint substituir_pontos (s : string) : string :=
  match s with
  | EmptyString => EmptyString
  | String c s' =>
    String (if Ascii.eqb c "."%char then "_"%char else c) (substituir_pontos s')
  end.

(** The file name of [gerar_graficos]. *)
Definition nome_arquivo (simbolo : string) : string :=
  "analise_" +:+ substituir_pontos simbolo +:+ ".png".

Section Analisador.

Context {F : Type} `{Aritmetica F} `{Padrao F}.
Local Open Scope arit_scope.

(** [RegressaoLinearManual()] *)
Definition novo_modelo : modelo F := init f001 1000 tolerancia_padrao.

(** *** [calcular_estatisticas_descritivas] *)

(** [nao_numero] is NaN.  The reductions of a pandas [Series] of
    floats, as pandas documents them: NaN entries are skipped, an empty
    or all-NaN series gives NaN, and [std] is the sample one (one
    degree of freedom less).  For its sums pandas puts 0 in the place
    of each NaN and adds the whole array with [np.sum]. *)
Definition nao_numero : F := f0 / f0.

Definition validos (s : list F) : list F := List.filter (fun v => v =? v) s.

Definition sem_nan (s : list F) : list F :=
  map (fun v => if v =? v then v else f0) s.

Definition pd_min (s : list F) : F :=
  match validos s with
  | [] => nao_numero
  | v :: r => fold_left (fun a b => if b <? a then b else a) r v
  end.

Definition pd_max (s : list F) : F :=
  match validos s with
  | [] => nao_numero
  | v :: r => fold_left (fun a b => if a <? b then b else a) r v
  end.

Definition pd_mean (s : list F) : F :=
  np_sum (sem_nan s) / of_int (Z.of_nat (length (validos s))).

Definition pd_std (s : list F) : F :=
  let avg := pd_mean s in
  let sqr := map (fun v => if v =? v then (avg - v) * (avg - v) else f0) s in
  if (Z.of_nat (length (validos s)) <=? 1)%Z then nao_numero
  else fsqrt (np_sum sqr / of_int (Z.of_nat (length (validos s)) - 1)).

Record estatisticas : Type := Estatisticas {
  est_minimo : F;
  est_maximo : F;
  est_media : F;
  est_desvio_padrao : F;
  est_total_dias : nat
}.

Definition calcular_estatisticas_descritivas (precos_fechamento : list F)
  : estatisticas :=
  {| est_minimo := pd_min precos_fechamento;
     est_maximo := pd_max precos_fechamento;
     est_media := pd_mean precos_fechamento;
     est_desvio_padrao := pd_std precos_fechamento;
     est_total_dias := length precos_fechamento |}.

(** *** The data fetched *)

(** A [DataFrame] of [ticker.history], by what the program reads of it:
    its index and its column [Close]. *)
Record DataFrame : Type := {
  indice : list Z;
  Close : list F
}.

(** What [yf.Ticker(simbolo).history(period=periodo)] did: returned a
    frame, or raised an exception that prints as [msg]. *)
Inductive resposta : Type :=
  | Dados (df : DataFrame)
  | Falha (msg : string).

(** [buscar_dados_historicos] *)
Definition buscar_dados_historicos (simbolo_acao : string) (r : resposta)
  : desfecho DataFrame :=
  match r with
  | Falha msg =>
    Levanta (Exception ("Erro ao buscar dados de " +:+ simbolo_acao +:+ ": " +:+ msg))
  | Dados dados =>
    match Close dados with
    | [] =>
      Levanta (Exception ("Erro ao buscar dados de " +:+ simbolo_acao +:+ ": "
                          +:+ "Nenhum dado encontrado para " +:+ simbolo_acao))
    | _ :: _ => Retorna dados
    end
  end.

Record resultado_analise : Type := {
  res_simbolo : string;
  res_dados_historicos : DataFrame;
  res_precos_fechamento : list F;
  res_datas : list Z;
  res_dias : list Z;
  res_coeficientes : gmap string F;
  res_previsoes : list F;
  res_estatisticas : estatisticas;
  res_erro_quadratico_medio : F;
  res_coeficiente_determinacao : F
}.

(** [analisar_acao_individual].  [r] is what the fetch did, [z0] and
    [z1] the draws [treinar] takes. *)
Definition analisar_acao_individual (simbolo_acao : string) (r : resposta)
  (z0 z1 : F) : desfecho resultado_analise :=
  match buscar_dados_historicos simbolo_acao r with
  | Levanta e => Levanta e
  | Retorna dados_historicos =>
    let precos_fechamento := Close dados_historicos in
    let datas := indice dados_historicos in
    let dias := seqZ 0 (Z.of_nat (length precos_fechamento)) in
    let regressao := novo_modelo in
    match treinar (map of_int dias) precos_fechamento z0 z1 regressao with
    | (_, Erro e) => Levanta (DoMotor e)
    | (regressao, Valor coeficientes) =>
      match prever (map of_int dias) regressao with
      | (_, Erro e) => Levanta (DoMotor e)
      | (regressao, Valor previsoes) =>
        let estatisticas := calcular_estatisticas_descritivas precos_fechamento in
        match difundir fsub precos_fechamento previsoes with
        | Erro e => Levanta (DoMotor e)
        | Valor d =>
          let erro_quadratico_medio := np_mean (quadrado d) in
          match calcular_r_quadrado precos_fechamento previsoes regressao with
          | (_, Erro e) => Levanta (DoMotor e)
          | (_, Valor coeficiente_determinacao) =>
            Retorna {| res_simbolo := simbolo_acao;
                       res_dados_historicos := dados_historicos;
                       res_precos_fechamento := precos_fechamento;
                       res_datas := datas;
                       res_dias := dias;
                       res_coeficientes := coeficientes;
                       res_previsoes := previsoes;
                       res_estatisticas := estatisticas;
                       res_erro_quadratico_medio := erro_quadratico_medio;
                       res_coeficiente_determinacao := coeficiente_determinacao |}
          end
        end
      end
    end
  end.

(** [analisar_acoes]: each symbol of [lista_acoes] comes with what its
    fetch did and the draws of its training. *)
Definition analisar_acoes (lista_acoes : list (string * resposta * (F * F)))
  : gmap string resultado_analise :=
  fold_left
    (fun resultados '(acao, r, (z0, z1)) =>
       match analisar_acao_individual acao r z0 z1 with
       | Retorna resultado => <[acao := resultado]> resultados
       | Levanta _ => resultados
       end)
    lista_acoes ∅.

(** The body of the loop of [exibir_resultados] for one entry, by what
    it computes: the trend it names and the three predictions it
    prints. *)
Definition exibir_um (dados : resultado_analise) : resultado (string * list F) :=
  _ ← item (res_coeficientes dados) "intercepto";
  _ ← item (res_coeficientes dados) "inclinacao";
  inclinacao ← item (res_coeficientes dados) "inclinacao";
  let tendencia := if f0 <? inclinacao then "ALTA" else "BAIXA" in
  let n := Z.of_nat (length (res_dias dados)) in
  let proximos_dias := [n; n + 5; n + 10]%Z in
  let regressao := guardar_coeficientes novo_modelo (res_coeficientes dados) in
  previsoes_futuras ← (prever (map of_int proximos_dias) regressao).2;
  _ ← match previsoes_futuras !! 0%nat with Some _ => Valor () | None => Erro IndexError end;
  _ ← match previsoes_futuras !! 1%nat with Some _ => Valor () | None => Erro IndexError end;
  _ ← match previsoes_futuras !! 2%nat with Some _ => Valor () | None => Erro IndexError end;
  Valor (tendencia, previsoes_futuras).

End Analisador.

Arguments estatisticas F : clear implicits.
Arguments DataFrame F : clear implicits.
Arguments resposta F : clear implicits.
Arguments resultado_analise F : clear implicits.

(** *** Vocabulary of the statements on the analyser *)

Section VocabularioAnalise.

Context {F : Type} `{Aritmetica F} `{Padrao F}.
Local Open Scope arit_scope.

(** A result as [analisar_acao_individual] builds it. *)
Definition resultado_coerente (simbolo : string) (res : resultado_analise F)
  : Prop :=
  let precos := res_precos_fechamento res in
  let dias := seqZ 0 (Z.of_nat (length precos)) in
  res_simbolo res = simbolo
  /\ precos <> []
  /\ precos = Close (res_dados_historicos res)
  /\ res_datas res = indice (res_dados_historicos res)
  /\ res_dias res = dias
  /\ res_estatisticas res = calcular_estatisticas_descritivas precos
  /\ res_erro_quadratico_medio res
     = np_mean (quadrado (zip_with fsub precos (res_previsoes res)))
  /\ (forall self,
        calcular_r_quadrado precos (res_previsoes res) self
        = (self, Valor (res_coeficiente_determinacao res)))
  /\ exists b0 b1,
       res_coeficientes res
       = dict_coeficientes b0 b1 (np_mean (map of_int dias)) (np_std (map of_int dias))
       /\ res_previsoes res = map (fun i => b0 + b1 * of_int i) dias.

(** One turn of the loop of [analisar_acoes]. *)
Definition passo_analise (resultados : gmap string (resultado_analise F))
  (e : string * resposta F * (F * F)) : gmap string (resultado_analise F) :=
  let '(acao, r, (z0, z1)) := e in
  match analisar_acao_individual acao r z0 z1 with
  | Retorna resultado => <[acao := resultado]> resultados
  | Levanta _ => resultados
  end.

End VocabularioAnalise.

(** ** Runs in binary64 *)

Module Exemplos.

#[local] Set Warnings "-inexact-float".
#[local] Open Scope float_scope.

(** [RegressaoLinearManual()] *)
Definition modelo_padrao : modelo float := init 0.01 1000 1e-6.

(** [RegressaoLinearManual(taxa_aprendizado=1.0)] *)
Definition modelo_passo_1 : modelo float := init 1 1000 1e-6.

(** [RegressaoLinearManual(max_iteracoes=0)] *)
Definition modelo_sem_iteracoes : modelo float := init 0.01 0 1e-6.

(** [modelo_passo_1] after [treinar([0, 1], [1, 3])] with both draws 0:
    the first iteration lands on the line through the two points, the
    second one proposes no change. *)
Definition modelo_reta_1_2 : modelo float :=
  (treinar [0; 1] [1; 3] 0 0 modelo_passo_1).1.

End Exemplos.

Module ExemplosAnalise.

#[local] Set Warnings "-inexact-float".
#[local] Open Scope float_scope.

(** Three closing prices on a line, as fetched for PETR4.SA. *)
Definition petr4 : DataFrame float :=
  {| indice := [0; 1; 2]%Z; Close := [10; 12; 14] |}.

(** Closing prices with a missing one. *)
Definition precos_com_nan : list float := [12; nan; 10; 14].

(** A frame without rows. *)
Definition sem_linhas : DataFrame float := {| indice := []; Close := [] |}.

(** [lista_acoes] of [main], with what each fetch did. *)
Definition tres_acoes : list (string * resposta float * (float * float)) :=
  [("PETR4.SA"%string, Dados petr4, (0.5, -0.3));
   ("BBAS3.SA"%string, Falha "sem rede", (0.1, 0.2));
   ("ELET3.SA"%string, Dados sem_linhas, (0.1, 0.2))].

End ExemplosAnalise.

(** ** Properties of the embedding *)

Section Propriedades.

Context {F : Type} `{Aritmetica F}.
Local Open Scope arit_scope.

Lemma length_reta b0 b1 (X : list F) : length (reta b0 b1 X) = length X.
Proof. unfold reta. by rewrite !length_map. Qed.

Lemma length_normalizar (X : list F) : length (normalizar X) = length X.
Proof. unfold normalizar. destruct (_ !=? _); by rewrite length_map. Qed.

(** *** Broadcasting *)

Lemma difundir_iguais op (a b : list F) :
  length a = length b -> difundir op a b = Valor (zip_with op a b).
Proof.
  intros E. unfold difundir.
  by rewrite (proj2 (Nat.eqb_eq _ _) E).
Qed.

Lemma difundir_erro op (a b : list F) :
  length a <> length b -> length a <> 1%nat -> length b <> 1%nat ->
  difundir op a b = Erro (ValueError msg_broadcast).
Proof.
  intros E Ha Hb. unfold difundir.
  rewrite (proj2 (Nat.eqb_neq _ _) E).
  destruct a as [|x [|x' a]]; destruct b as [|y0 [|y' b]]; simpl in *; congruence.
Qed.

Lemma difundir_valor op (a b : list F) :
  difundem a b ->
  exists r, difundir op a b = Valor r
            /\ length r = if (length a =? 1)%nat then length b else length a.
Proof.
  intros Hd. unfold difundir.
  destruct (length a =? length b)%nat eqn:E.
  - apply Nat.eqb_eq in E. eexists. split; [reflexivity|].
    rewrite length_zip_with, <- E, Nat.min_id. by destruct (_ =? _)%nat.
  - apply Nat.eqb_neq in E. unfold difundem in Hd.
    destruct a as [|x [|x' a]]; destruct b as [|y0 [|y' b]]; cbn in *.
    + congruence.
    + eexists. split; reflexivity.
    + exfalso. lia.
    + eexists. split; reflexivity.
    + congruence.
    + eexists. split; [reflexivity|]. cbn. by rewrite length_map.
    + exfalso. lia.
    + eexists. split; [reflexivity|]. cbn. by rewrite length_map.
    + exfalso. lia.
Qed.

(** *** One iteration *)

Lemma inverso_int_valor (k : Z) :
  k <> 0%Z -> inverso_int k = Valor (of_int 1 / of_int k).
Proof.
  intros E. unfold inverso_int.
  by rewrite (proj2 (Z.eqb_neq _ _) E).
Qed.

Lemma calcular_custo_valor (y p : list F) :
  difundem p y -> length y <> 0%nat ->
  exists c, calcular_custo y p = Valor c.
Proof.
  intros Hd Hy. unfold calcular_custo.
  rewrite inverso_int_valor by lia. simpl.
  destruct (difundir_valor fsub p y Hd) as (d & -> & _). by eexists.
Qed.

Lemma calcular_custo_erro (y p : list F) :
  length p <> length y -> length p <> 1%nat -> length y <> 1%nat ->
  length y <> 0%nat ->
  calcular_custo y p = Erro (ValueError msg_broadcast).
Proof.
  intros E Hp Hy1 Hy0. unfold calcular_custo.
  rewrite inverso_int_valor by lia. simpl.
  by rewrite difundir_erro.
Qed.

Lemma calcular_gradientes_valor (X y p : list F) :
  difundem p y -> length X = length p -> length y <> 0%nat ->
  exists g0 g1, calcular_gradientes X y p = Valor (g0, g1).
Proof.
  intros Hd EX Hy. unfold calcular_gradientes.
  rewrite inverso_int_valor by lia. simpl.
  destruct (difundir_valor fsub p y Hd) as (d & -> & Ed). simpl.
  destruct (difundir_valor fmul d X) as (q & -> & _); [|by eauto].
  unfold difundem. rewrite Ed, EX.
  destruct (length p =? 1)%nat eqn:E1; [|by left].
  apply Nat.eqb_eq in E1. by right; right.
Qed.

(** *** The loop *)

(** The loop reads the learning rate and the tolerance of [self] and
    nothing else of it; it appends to the history and leaves the other
    attributes as they are. *)
Lemma laco_forma (X_norm y : list F) (taxa tol : F) (n : nat) :
  forall b0 b1, exists h r, forall self,
    taxa_aprendizado self = taxa -> tolerancia self = tol ->
    laco n X_norm y b0 b1 self
    = (Modelo taxa (max_iteracoes self) tol (coeficientes self)
              (historico_custo self ++ h), r).
Proof.
  induction n as [|n IH]; intros b0 b1.
  - exists [], (Valor (b0, b1)). intros [] <- <-. simpl. by rewrite app_nil_r.
  - simpl. destruct (calcular_custo y _) as [c|e] eqn:Ec.
    + destruct (calcular_gradientes X_norm y _) as [[g0 g1]|e] eqn:Eg.
      * destruct (convergiu tol (b0 - taxa * g0) b0 (b1 - taxa * g1) b1) eqn:Ecv.
        -- exists [c], (Valor (b0, b1)). intros [] <- <-. simpl in *. by rewrite Ecv.
        -- destruct (IH (b0 - taxa * g0) (b1 - taxa * g1)) as (h & r & Hl).
           exists (c :: h), r. intros [] <- <-. simpl in *. rewrite Ecv.
           rewrite Hl by done. simpl. by rewrite <- app_assoc.
      * exists [c], (Erro e). by intros [] <- <-.
    + exists [], (Erro e). intros [] <- <-. simpl. by rewrite app_nil_r.
Qed.

Lemma laco_avancar (X_norm y : list F) (k n : nat) :
  forall b0 b1 self b0' b1' self',
    avancar k X_norm y b0 b1 self = Some (b0', b1', self') ->
    laco (k + n) X_norm y b0 b1 self = laco n X_norm y b0' b1' self'.
Proof.
  induction k as [|k IH]; intros b0 b1 self b0' b1' self' Ha.
  - simpl in Ha. by simplify_eq.
  - simpl in *. unfold reta in Ha.
    destruct (calcular_custo y _) as [c|e]; [|done].
    destruct (calcular_gradientes X_norm y _) as [[g0 g1]|e]; [|done].
    simpl. destruct (convergiu _ _ _ _ _); [done|].
    by apply IH.
Qed.

(** The iteration that meets the convergence test ends the loop with
    the coefficients it started from and its own cost as the last one. *)
Lemma laco_convergiu (X_norm y : list F) (n : nat) b0 b1 self custo g0 g1 :
  calcular_custo y (reta b0 b1 X_norm) = Valor custo ->
  calcular_gradientes X_norm y (reta b0 b1 X_norm) = Valor (g0, g1) ->
  convergiu (tolerancia self)
            (b0 - taxa_aprendizado self * g0) b0
            (b1 - taxa_aprendizado self * g1) b1 = true ->
  laco (S n) X_norm y b0 b1 self = (anexar_custo self custo, Valor (b0, b1)).
Proof.
  intros Ec Eg Ecv. simpl. unfold reta in Ec, Eg.
  rewrite Ec, Eg. simpl. by rewrite Ecv.
Qed.

Lemma laco_historico (X_norm y : list F) (n : nat) b0 b1 (self : modelo F) :
  exists h r,
    laco n X_norm y b0 b1 self
    = (Modelo (taxa_aprendizado self) (max_iteracoes self) (tolerancia self)
              (coeficientes self) (historico_custo self ++ h), r)
    /\ laco n X_norm y b0 b1 (reiniciar self)
       = (Modelo (taxa_aprendizado self) (max_iteracoes self) (tolerancia self)
                 ∅ h, r).
Proof.
  destruct (laco_forma X_norm y (taxa_aprendizado self) (tolerancia self) n b0 b1)
    as (h & r & Hl).
  exists h, r. split; [by apply Hl|].
  by rewrite (Hl (reiniciar self)).
Qed.

(** With shapes that broadcast and [y] not empty no iteration raises;
    and an iteration that ran left a cost in the history. *)
Lemma laco_sem_erro (X_norm y : list F) (n : nat) :
  difundem X_norm y -> length y <> 0%nat ->
  forall b0 b1 (self : modelo F), exists self' b0' b1',
    laco n X_norm y b0 b1 self = (self', Valor (b0', b1'))
    /\ (n <> 0%nat -> historico_custo self' <> []).
Proof.
  intros Hd Hy. induction n as [|n IH]; intros b0 b1 self.
  - exists self, b0, b1. by split.
  - simpl. fold (reta b0 b1 X_norm).
    assert (Hd' : difundem (reta b0 b1 X_norm) y)
      by (unfold difundem; by rewrite length_reta).
    destruct (calcular_custo_valor y (reta b0 b1 X_norm) Hd' Hy) as (c & ->).
    destruct (calcular_gradientes_valor X_norm y (reta b0 b1 X_norm))
      as (g0 & g1 & ->); [done|by rewrite length_reta|done|].
    simpl. destruct (convergiu _ _ _ _ _).
    + eexists _, _, _. split; [reflexivity|]. intros _. simpl.
      by destruct (historico_custo self).
    + match goal with |- context [laco n _ _ ?a ?b ?s] =>
        destruct (IH a b s) as (self' & b0' & b1' & Hl & Hh);
        destruct (laco_historico X_norm y n a b s) as (h & r & Hs & _)
      end.
      exists self', b0', b1'. split; [done|]. intros _.
      rewrite Hl in Hs. injection Hs as -> _. simpl.
      by destruct (historico_custo self).
Qed.

(** With shapes that do not broadcast the first iteration raises, before
    anything is appended. *)
Lemma laco_erro_broadcast (X_norm y : list F) (n : nat) b0 b1 (self : modelo F) :
  ~ difundem X_norm y -> length y <> 0%nat ->
  laco (S n) X_norm y b0 b1 self = (self, Erro (ValueError msg_broadcast)).
Proof.
  intros Hd Hy0. simpl. fold (reta b0 b1 X_norm).
  rewrite calcular_custo_erro; rewrite ?length_reta; try done;
    intros E; apply Hd; unfold difundem; auto.
Qed.

(** *** The dict of coefficients *)

Lemma dict_coeficientes_intercepto (b0 b1 xm xs : F) :
  dict_coeficientes b0 b1 xm xs !! "intercepto" = Some b0.
Proof. unfold dict_coeficientes. by simplify_map_eq. Qed.

Lemma dict_coeficientes_inclinacao (b0 b1 xm xs : F) :
  dict_coeficientes b0 b1 xm xs !! "inclinacao" = Some b1.
Proof. unfold dict_coeficientes. by simplify_map_eq. Qed.

Lemma dict_coeficientes_X_mean (b0 b1 xm xs : F) :
  dict_coeficientes b0 b1 xm xs !! "X_mean" = Some xm.
Proof. unfold dict_coeficientes. by simplify_map_eq. Qed.

Lemma dict_coeficientes_X_std (b0 b1 xm xs : F) :
  dict_coeficientes b0 b1 xm xs !! "X_std" = Some xs.
Proof. unfold dict_coeficientes. by simplify_map_eq. Qed.

Lemma dict_vazio_vazio : dict_vazio (∅ : gmap string F) = true.
Proof. unfold dict_vazio. by rewrite map_to_list_empty. Qed.

Lemma dict_vazio_coeficientes (b0 b1 xm xs : F) :
  dict_vazio (dict_coeficientes b0 b1 xm xs) = false.
Proof.
  unfold dict_vazio.
  destruct (map_to_list (dict_coeficientes b0 b1 xm xs)) eqn:E; [|done].
  apply map_to_list_empty_iff in E.
  by destruct (insert_non_empty _ _ _ E).
Qed.

(** *** The methods that only read *)

Lemma prever_treinado (X : list F) (self : modelo F) b0 b1 xm xs :
  coeficientes self = dict_coeficientes b0 b1 xm xs ->
  prever X self = (self, Valor (map (fun v => b0 + b1 * v) X)).
Proof.
  intros E. unfold prever. rewrite E, dict_vazio_coeficientes.
  unfold item. rewrite dict_coeficientes_intercepto, dict_coeficientes_inclinacao.
  simpl. by rewrite map_map.
Qed.

Lemma prever_vazio (X : list F) (self : modelo F) :
  coeficientes self = ∅ ->
  prever X self = (self, Erro (ValueError msg_nao_treinado)).
Proof. intros E. unfold prever. by rewrite E, dict_vazio_vazio. Qed.

Lemma prever_estado (X : list F) (self : modelo F) : (prever X self).1 = self.
Proof. unfold prever. by destruct (dict_vazio _). Qed.

Lemma obter_metricas_modelo_estado (X y_real : list F) (self : modelo F) :
  (obter_metricas_modelo X y_real self).1 = self.
Proof.
  unfold obter_metricas_modelo.
  pose proof (prever_estado X self) as E.
  destruct (prever X self) as [s [v|e]]; simpl in E; subst s; [|done].
  unfold calcular_r_quadrado. by destruct (_ ≫= _).
Qed.

(** *** What [treinar] leaves in [self] *)

Lemma treinar_treinado (X y : list F) z0 z1 (self : modelo F) :
  treinado self -> treinado (treinar X y z0 z1 self).1.
Proof.
  intros Ht. unfold treinar.
  destruct (laco_historico (normalizar X) y (Z.to_nat (max_iteracoes self))
              (z0 * f001) (z1 * f001) self) as (h & r & -> & _).
  destruct r as [[b0 b1]|e]; [|done].
  destruct (desnormalizar _ _ b0 b1) as [b0' b1'].
  destruct (last _); simpl; by eexists _, _, _, _.
Qed.

Lemma treinar_valor_treinado (X y : list F) z0 z1 (self self' : modelo F) c :
  treinar X y z0 z1 self = (self', Valor c) -> treinado self'.
Proof.
  unfold treinar.
  destruct (laco _ _ _ _ _ self) as [s [[b0 b1]|e]]; [|done].
  destruct (desnormalizar _ _ b0 b1) as [b0' b1'].
  destruct (last _); [|done].
  intros [= <- _]. by eexists _, _, _, _.
Qed.

Lemma executar_treinado (c : chamada F) (self : modelo F) :
  treinado self -> treinado (executar c self).
Proof.
  destruct c; simpl.
  - apply treinar_treinado.
  - by rewrite prever_estado.
  - done.
  - by rewrite obter_metricas_modelo_estado.
Qed.

Lemma executar_todas_treinado (cs : list (chamada F)) (self : modelo F) :
  treinado self -> treinado (executar_todas cs self).
Proof.
  revert self. induction cs as [|c cs IH]; intros self Ht; [done|].
  apply IH. by apply executar_treinado.
Qed.

Lemma quadrado_zip_with_fsub (a b : list F) :
  quadrado (zip_with fsub a b)
  = zip_with (fun u v => (u - v) * (u - v)) a b.
Proof.
  revert b. induction a as [|u a IH]; intros [|v b]; simpl; [done..|].
  f_equal. apply IH.
Qed.

End Propriedades.

(** ** The claims *)

Section Convergencia.

Context {F : Type} `{Aritmetica F}.
Local Open Scope arit_scope.

(** C1. When, after [k] iterations that went on, iteration [k+1] (one
    of the [max_iteracoes] allowed) proposes an intercept and a slope
    both closer than the tolerance to the current ones, the loop stops
    there: the proposed values are dropped, [treinar] de-normalizes and
    stores the coefficients the iteration started from, and the history
    ends with the cost of that iteration. *)
Theorem treinar_para_na_convergencia
  (X y : list F) (z0 z1 : F) (self : modelo F) (k : nat)
  (b0 b1 : F) (self_k : modelo F) (custo g0 g1 : F) :
  let X_norm := normalizar X in
  (k < Z.to_nat (max_iteracoes self))%nat ->
  avancar k X_norm y (z0 * f001) (z1 * f001) self = Some (b0, b1, self_k) ->
  calcular_custo y (reta b0 b1 X_norm) = Valor custo ->
  calcular_gradientes X_norm y (reta b0 b1 X_norm) = Valor (g0, g1) ->
  (fabs ((b0 - taxa_aprendizado self_k * g0) - b0) <? tolerancia self_k) = true ->
  (fabs ((b1 - taxa_aprendizado self_k * g1) - b1) <? tolerancia self_k) = true ->
  let '(b0_orig, b1_orig) := desnormalizar (np_mean X) (np_std X) b0 b1 in
  let d := dict_coeficientes b0_orig b1_orig (np_mean X) (np_std X) in
  treinar X y z0 z1 self
  = (guardar_coeficientes (anexar_custo self_k custo) d, Valor d)
  /\ historico_custo (treinar X y z0 z1 self).1
     = historico_custo self_k ++ [custo].
Proof.
  intros X_norm Hk Ha Ec Eg H0 H1.
  assert (Hl : laco (Z.to_nat (max_iteracoes self)) X_norm y
                    (z0 * f001) (z1 * f001) self
               = (anexar_custo self_k custo, Valor (b0, b1))).
  { replace (Z.to_nat (max_iteracoes self))
      with (k + S (Z.to_nat (max_iteracoes self) - S k))%nat by lia.
    rewrite (laco_avancar _ _ _ _ _ _ _ _ _ _ Ha).
    apply (laco_convergiu _ _ _ _ _ _ _ _ _ Ec Eg).
    unfold convergiu. by rewrite H0, H1. }
  destruct (desnormalizar _ _ b0 b1) as [b0_orig b1_orig] eqn:Ed.
  unfold treinar. fold X_norm. rewrite Hl, Ed.
  simpl. by rewrite last_snoc.
Qed.

End Convergencia.

Section Treino.

Context {F : Type} `{Aritmetica F}.
Local Open Scope arit_scope.

(** C2. A call of [treinar] that returns ran the loop on [X] minus its
    mean, divided by its standard deviation when that is not zero and
    not divided otherwise; the dict it returns is the one it stored,
    and holds the final slope divided by the standard deviation, and
    the final intercept minus slope times mean over standard deviation
    (when it is zero: the slope as it is, and the intercept minus slope
    times mean), with the mean and the standard deviation beside them. *)
Theorem treinar_desnormaliza
  (X y : list F) (z0 z1 : F) (self self' : modelo F) (c : gmap string F) :
  treinar X y z0 z1 self = (self', Valor c) ->
  let X_mean := np_mean X in
  let X_std := np_std X in
  let X_norm := if X_std !=? f0 then map (fun v => (v - X_mean) / X_std) X
                else map (fun v => v - X_mean) X in
  exists intercepto inclinacao self_l,
    laco (Z.to_nat (max_iteracoes self)) X_norm y (z0 * f001) (z1 * f001) self
    = (self_l, Valor (intercepto, inclinacao))
    /\ coeficientes self' = c
    /\ c !! "inclinacao"
       = Some (if X_std !=? f0 then inclinacao / X_std else inclinacao)
    /\ c !! "intercepto"
       = Some (if X_std !=? f0 then intercepto - (inclinacao * X_mean / X_std)
               else intercepto - (inclinacao * X_mean))
    /\ c !! "X_mean" = Some X_mean
    /\ c !! "X_std" = Some X_std.
Proof.
  intros Ht X_mean X_std X_norm. unfold treinar in Ht.
  change (normalizar X) with X_norm in Ht.
  destruct (laco _ X_norm y _ _ self) as [self_l [[b0 b1]|e]] eqn:El; [|done].
  destruct (desnormalizar _ _ b0 b1) as [b0' b1'] eqn:Ed.
  destruct (last _); [|done].
  injection Ht as <- <-. exists b0, b1, self_l. simpl.
  rewrite dict_coeficientes_intercepto, dict_coeficientes_inclinacao,
    dict_coeficientes_X_mean, dict_coeficientes_X_std.
  unfold desnormalizar in Ed. fold X_mean X_std in Ed.
  destruct (X_std !=? f0); injection Ed as <- <-; done.
Qed.

(** C3, as the code has it. On a model that allows at least one
    iteration and for [y] not empty: when the lengths of [X] and [y]
    differ and neither is one, [treinar] raises the broadcasting
    [ValueError] and leaves the model as it was; when they are equal,
    or one of the two arrays has one element (NumPy stretches it over
    the other), [treinar] raises nothing and returns a dict of
    coefficients. *)
Theorem treinar_formas (X y : list F) (z0 z1 : F) (self : modelo F) :
  (0 < max_iteracoes self)%Z -> length y <> 0%nat ->
  (length X <> length y -> length X <> 1%nat -> length y <> 1%nat ->
   treinar X y z0 z1 self = (self, Erro (ValueError msg_broadcast)))
  /\ (length X = length y \/ length X = 1%nat \/ length y = 1%nat ->
      exists self' c, treinar X y z0 z1 self = (self', Valor c)).
Proof.
  intros Hmax Hy0.
  destruct (Z.to_nat (max_iteracoes self)) as [|n] eqn:En; [lia|].
  split.
  - intros E HX Hy1. unfold treinar. rewrite En.
    rewrite laco_erro_broadcast; [done| |done].
    unfold difundem. rewrite length_normalizar. tauto.
  - intros Hd. unfold treinar. rewrite En.
    destruct (laco_sem_erro (normalizar X) y (S n)) with
      (b0 := z0 * f001) (b1 := z1 * f001) (self := self)
      as (self' & b0' & b1' & -> & Hh);
      [by unfold difundem; rewrite length_normalizar|done|].
    destruct (desnormalizar _ _ b0' b1') as [b0o b1o]. simpl.
    destruct (last (historico_custo self')) eqn:El; [by eauto|].
    apply last_None in El. by destruct Hh.
Qed.

(** C4, as the code has it. A call of [treinar] that returns replaces
    the dict of coefficients by the one a new instance with the same
    hyperparameters would get from the same call, whatever [self] held
    before; the cost history is not reset: the costs of this run are
    appended to the ones already there. *)
Theorem treinar_de_novo
  (X y : list F) (z0 z1 : F) (self self' : modelo F) (c : gmap string F) :
  treinar X y z0 z1 self = (self', Valor c) ->
  let novo := (treinar X y z0 z1 (reiniciar self)).1 in
  coeficientes self' = c
  /\ coeficientes self' = coeficientes novo
  /\ historico_custo self' = historico_custo self ++ historico_custo novo.
Proof.
  intros Ht novo. subst novo. unfold treinar in *.
  destruct (laco_historico (normalizar X) y (Z.to_nat (max_iteracoes self))
              (z0 * f001) (z1 * f001) self) as (h & r & Hs & Hn).
  change (max_iteracoes (reiniciar self)) with (max_iteracoes self).
  rewrite Hs in Ht. rewrite Hn. clear Hs Hn.
  destruct r as [[b0 b1]|e]; [|done].
  destruct (desnormalizar _ _ b0 b1) as [b0' b1'].
  simpl in Ht. destruct (last (historico_custo self ++ h)); [|done].
  injection Ht as <- <-. simpl.
  by destruct (last h).
Qed.

(** C5, as the code has it. With [max_iteracoes] zero or negative the
    loop of [treinar] runs no iteration and nothing is appended to the
    history; the dict of coefficients is stored all the same, from the
    initial random intercept and slope de-normalized, so that [prever]
    answers afterwards. *)
Theorem treinar_sem_iteracoes (X y : list F) (z0 z1 : F) (self : modelo F) :
  (max_iteracoes self <= 0)%Z ->
  let self' := (treinar X y z0 z1 self).1 in
  let '(b0, b1) := desnormalizar (np_mean X) (np_std X) (z0 * f001) (z1 * f001) in
  laco (Z.to_nat (max_iteracoes self)) (normalizar X) y (z0 * f001) (z1 * f001) self
  = (self, Valor (z0 * f001, z1 * f001))
  /\ historico_custo self' = historico_custo self
  /\ coeficientes self' = dict_coeficientes b0 b1 (np_mean X) (np_std X)
  /\ forall Xp, prever Xp self' = (self', Valor (map (fun v => b0 + b1 * v) Xp)).
Proof.
  intros Hmax self'. subst self'. unfold treinar.
  replace (Z.to_nat (max_iteracoes self)) with 0%nat by lia. simpl.
  destruct (desnormalizar _ _ _ _) as [b0 b1].
  split; [done|].
  destruct (last (historico_custo self)); simpl; (split; [done|split; [done|]]);
    intros Xp; by apply prever_treinado with (xm := np_mean X) (xs := np_std X).
Qed.

End Treino.

Section Leitura.

Context {F : Type} `{Aritmetica F}.
Local Open Scope arit_scope.


(** C8. On a newly constructed model [prever] raises the [ValueError]
    that says the model was not trained, whatever its input, and
    returns nothing. *)
Theorem prever_sem_treino (taxa : F) (max_it : Z) (tol : F) (X : list F) :
  prever X (init taxa max_it tol)
  = (init taxa max_it tol, Erro (ValueError msg_nao_treinado)).
Proof. by apply prever_vazio. Qed.

(** C9, as the code has it. On a newly constructed model
    [obter_metricas_modelo] raises the [ValueError] of [prever];
    [calcular_r_quadrado] does not read the model: it gives the same
    result on every model, and a value whenever its two arrays have one
    length. *)
Theorem metricas_sem_treino (taxa : F) (max_it : Z) (tol : F) :
  (forall X y_real,
     obter_metricas_modelo X y_real (init taxa max_it tol)
     = (init taxa max_it tol, Erro (ValueError msg_nao_treinado)))
  /\ (forall y_real y_previsto (self self' : modelo F),
        (calcular_r_quadrado y_real y_previsto self).2
        = (calcular_r_quadrado y_real y_previsto self').2)
  /\ (forall y_real y_previsto,
        length y_real = length y_previsto ->
        exists r, calcular_r_quadrado y_real y_previsto (init taxa max_it tol)
                  = (init taxa max_it tol, Valor r)).
Proof.
  split; [|split].
  - intros X y_real. unfold obter_metricas_modelo.
    by rewrite prever_vazio.
  - done.
  - intros y_real y_previsto E. unfold calcular_r_quadrado.
    rewrite difundir_iguais by done. simpl.
    destruct (_ =? _); by eexists.
Qed.

(** C10. After a call of [treinar] that returned, whatever calls of
    [treinar], [prever], [calcular_r_quadrado] and
    [obter_metricas_modelo] follow, with whatever arguments and
    whether they raise or not, the dict of coefficients is not empty
    and [prever] returns its predictions. *)
Theorem treinado_para_sempre
  (X y : list F) (z0 z1 : F) (self0 self : modelo F) (c : gmap string F)
  (cs : list (chamada F)) (Xp : list F) :
  treinar X y z0 z1 self0 = (self, Valor c) ->
  dict_vazio (coeficientes (executar_todas cs self)) = false
  /\ exists v, prever Xp (executar_todas cs self)
               = (executar_todas cs self, Valor v).
Proof.
  intros Ht. apply treinar_valor_treinado in Ht.
  destruct (executar_todas_treinado cs self Ht) as (b0 & b1 & xm & xs & E).
  split.
  - rewrite E. apply dict_vazio_coeficientes.
  - eexists. by apply prever_treinado with (xm := xm) (xs := xs).
Qed.

End Leitura.

(** The two branches of [calcular_r_quadrado]. For two arrays of one
    length it returns 1.0 when the total sum of squares it computes
    (the squared deviations of [y_real] from its computed mean, added
    up) compares equal to 0, whatever [y_previsto] is, and otherwise 1
    minus the residual sum of squares (the squared differences of
    [y_real] and [y_previsto], added up) over the total one; the result
    is not clamped: in binary64 it is -3 for [y_real = [0, 1]] and
    [y_previsto = [1, 0]]. *)
Lemma r_quadrado_ramos :
  (forall (F : Type) (A : Aritmetica F) (y_real y_previsto : list F)
          (self : modelo F),
     length y_real = length y_previsto ->
     let ss_res :=
       np_sum (zip_with (fun a p => fmul (fsub a p) (fsub a p)) y_real y_previsto) in
     let media := np_mean y_real in
     let ss_tot :=
       np_sum (map (fun a => fmul (fsub a media) (fsub a media)) y_real) in
     calcular_r_quadrado y_real y_previsto self
     = (self, Valor (if feq ss_tot f0 then f1
                     else fsub f1 (fdiv ss_res ss_tot))))
  /\ (forall self : modelo float,
        calcular_r_quadrado [0; 1]%float [1; 0]%float self
        = (self, Valor (-3)%float)).
Proof.
  split.
  - intros F A y_real y_previsto self E ss_res media ss_tot.
    unfold calcular_r_quadrado. rewrite difundir_iguais by done. simpl.
    rewrite quadrado_zip_with_fsub. unfold quadrado. rewrite map_map.
    fold media ss_res ss_tot. by destruct (feq ss_tot f0).
  - intros self. reflexivity.
Qed.

(** ** The runs, against the statements *)

Module Casos.

Import Exemplos.
#[local] Set Warnings "-inexact-float".
#[local] Open Scope float_scope.

(** Two floats that [==] tells apart are not equal. *)
Ltac floats_distintos :=
  match goal with
  | |- ?a <> ?b =>
    let E := fresh "E" in
    intros E; apply (f_equal (PrimFloat.eqb a)) in E;
    vm_compute in E; discriminate E
  end.

Lemma treinar_para_na_convergencia_witness :
  let d := dict_coeficientes 1 2 0.5 0.5 in
  treinar [0; 1] [1; 3] 0 0 modelo_passo_1
  = (guardar_coeficientes (anexar_custo (anexar_custo modelo_passo_1 2.5) 0) d,
     Valor d)
  /\ historico_custo (treinar [0; 1] [1; 3] 0 0 modelo_passo_1).1 = [2.5; 0].
Proof.
  assert (Hk : (1 < Z.to_nat (max_iteracoes modelo_passo_1))%nat)
    by (vm_compute; lia).
  exact (treinar_para_na_convergencia [0; 1] [1; 3] 0 0 modelo_passo_1
           1 2 1 (anexar_custo modelo_passo_1 2.5) 0 0 0
           Hk eq_refl eq_refl eq_refl eq_refl eq_refl).
Defined.

Lemma treinar_desnormaliza_witness :
  exists intercepto inclinacao self_l,
    laco 1000 [-1; 1] [1; 3] 0 0 modelo_passo_1
    = (self_l, Valor (intercepto, inclinacao))
    /\ coeficientes modelo_reta_1_2 = dict_coeficientes 1 2 0.5 0.5
    /\ dict_coeficientes 1 2 0.5 0.5 !! "inclinacao" = Some (inclinacao / 0.5)
    /\ dict_coeficientes 1 2 0.5 0.5 !! "intercepto"
       = Some (intercepto - inclinacao * 0.5 / 0.5)
    /\ dict_coeficientes 1 2 0.5 0.5 !! "X_mean" = Some 0.5
    /\ dict_coeficientes 1 2 0.5 0.5 !! "X_std" = Some 0.5.
Proof.
  exact (treinar_desnormaliza [0; 1] [1; 3] 0 0 modelo_passo_1
           modelo_reta_1_2 (dict_coeficientes 1 2 0.5 0.5) eq_refl).
Defined.

(** C3 fails as stated: an array of one element is stretched over the
    other, whichever of [X] and [y] it is, and [treinar] returns its
    dict; and on a model that allows no iteration nothing compares the
    shapes: the call ends in the [IndexError] of the empty history. *)
Lemma treinar_sem_erro_de_forma :
  length [0; 1; 2] <> length [5]
  /\ (exists self' c,
        treinar [0; 1; 2] [5] 0.5 (-0.3) modelo_padrao = (self', Valor c))
  /\ (exists self' c,
        treinar [5] [1; 2; 3] 0.5 (-0.3) modelo_padrao = (self', Valor c))
  /\ (treinar [0; 1; 2] [1; 2] 0.5 (-0.3) modelo_sem_iteracoes).2
     = Erro IndexError.
Proof.
  split; [by vm_compute|].
  split; [eexists _, _; vm_compute; reflexivity|].
  split; [eexists _, _; vm_compute; reflexivity|].
  vm_compute. reflexivity.
Qed.

Lemma treinar_formas_witness :
  treinar [0; 1; 2] [1; 2] 0.5 (-0.3) modelo_padrao
  = (modelo_padrao, Erro (ValueError msg_broadcast))
  /\ exists self' c,
       treinar [0; 1; 2; 3; 4] [10; 12; 14; 16; 18] 0.5 (-0.3) modelo_padrao
       = (self', Valor c).
Proof.
  assert (Hmax : (0 < max_iteracoes modelo_padrao)%Z) by (vm_compute; reflexivity).
  split.
  - apply (proj1 (treinar_formas [0; 1; 2] [1; 2] 0.5 (-0.3) modelo_padrao
                    Hmax ltac:(simpl; lia))); simpl; lia.
  - apply (proj2 (treinar_formas [0; 1; 2; 3; 4] [10; 12; 14; 16; 18]
                    0.5 (-0.3) modelo_padrao Hmax ltac:(simpl; lia))).
    left. reflexivity.
Defined.

(** C4 fails as stated: after a second call the history still starts
    with the two costs of the first one. *)
Lemma treinar_acumula_historico :
  historico_custo modelo_reta_1_2 = [2.5; 0]
  /\ (treinar [0; 1] [2; 6] 0 0 modelo_reta_1_2).2
     = Valor (dict_coeficientes 2 4 0.5 0.5)
  /\ historico_custo (treinar [0; 1] [2; 6] 0 0 modelo_reta_1_2).1
     = [2.5; 0; 10; 0]
  /\ historico_custo (treinar [0; 1] [2; 6] 0 0 modelo_passo_1).1 = [10; 0].
Proof. repeat split; vm_compute; reflexivity. Qed.

Lemma treinar_de_novo_witness :
  let novo := (treinar [0; 1] [2; 6] 0 0 (reiniciar modelo_reta_1_2)).1 in
  let self' := (treinar [0; 1] [2; 6] 0 0 modelo_reta_1_2).1 in
  coeficientes self' = dict_coeficientes 2 4 0.5 0.5
  /\ coeficientes self' = coeficientes novo
  /\ historico_custo self' = historico_custo modelo_reta_1_2 ++ historico_custo novo.
Proof.
  exact (treinar_de_novo [0; 1] [2; 6] 0 0 modelo_reta_1_2
           (treinar [0; 1] [2; 6] 0 0 modelo_reta_1_2).1
           (dict_coeficientes 2 4 0.5 0.5) eq_refl).
Defined.

(** C5 fails as stated: with [max_iteracoes = 0] the call stores a dict
    of coefficients, [prever] answers from it afterwards, and the call
    itself ends in [IndexError]. *)
Lemma treinar_sem_iteracoes_guarda :
  treinar [0; 1] [1; 3] 1 1 modelo_sem_iteracoes
  = (guardar_coeficientes modelo_sem_iteracoes (dict_coeficientes 0 0.02 0.5 0.5),
     Erro IndexError)
  /\ dict_vazio (coeficientes (treinar [0; 1] [1; 3] 1 1 modelo_sem_iteracoes).1)
     = false
  /\ (prever [5] (treinar [0; 1] [1; 3] 1 1 modelo_sem_iteracoes).1).2
     = Valor [0.10000000000000001].
Proof. repeat split; vm_compute; reflexivity. Qed.

Lemma treinar_sem_iteracoes_witness :
  let self' := (treinar [0; 1] [1; 3] 1 1 modelo_sem_iteracoes).1 in
  laco 0 [-1; 1] [1; 3] 0.01 0.01 modelo_sem_iteracoes
  = (modelo_sem_iteracoes, Valor (0.01, 0.01))
  /\ historico_custo self' = []
  /\ coeficientes self' = dict_coeficientes 0 0.02 0.5 0.5
  /\ forall Xp, prever Xp self' = (self', Valor (map (fun v => 0 + 0.02 * v) Xp)).
Proof.
  assert (Hmax : (max_iteracoes modelo_sem_iteracoes <= 0)%Z) by (vm_compute; discriminate).
  exact (treinar_sem_iteracoes [0; 1] [1; 3] 1 1 modelo_sem_iteracoes Hmax).
Defined.

(** C6. On three identical values, [y_real = [0.1, 0.1, 0.1]], the
    mean that [calcular_r_quadrado] computes is 0.10000000000000002 and
    not 0.1, so the total sum of squares is about 5.8e-34 and not 0:
    the test [ss_tot == 0] fails, and with [y_previsto = [0, 0, 0]] the
    call returns about -5.19e31, where all values being equal should
    give 1.0, as they do on [y_real = [5, 5, 5]]. *)
Theorem r_quadrado_valores_iguais :
  let y_real := [0.1; 0.1; 0.1] in
  let ss_tot := np_sum (quadrado (map (fun a => a - np_mean y_real) y_real)) in
  np_mean y_real = 0.10000000000000002
  /\ ss_tot = 5.7777898331617076e-34
  /\ (ss_tot =? 0) = false
  /\ calcular_r_quadrado y_real [0; 0; 0] modelo_padrao
     = (modelo_padrao, Valor (-5.1922968585348286e+31))
  /\ -5.1922968585348286e+31 <> 1
  /\ calcular_r_quadrado [5; 5; 5] [0; 0; 0] modelo_padrao
     = (modelo_padrao, Valor 1).
Proof.
  repeat split; try (vm_compute; reflexivity); floats_distintos.
Qed.



(** C9 fails as stated: on a model never trained [calcular_r_quadrado]
    returns a value. *)
Lemma r_quadrado_sem_treino :
  calcular_r_quadrado [1; 2; 3] [1; 2; 4] (init 0.01 1000 1e-6)
  = (init 0.01 1000 1e-6, Valor 0.5).
Proof. reflexivity. Qed.

Lemma metricas_sem_treino_witness :
  obter_metricas_modelo [0; 1; 2] [1; 3; 5] modelo_padrao
  = (modelo_padrao, Erro (ValueError msg_nao_treinado))
  /\ exists r, calcular_r_quadrado [1; 2; 3] [1; 2; 4] modelo_padrao
               = (modelo_padrao, Valor r).
Proof.
  destruct (metricas_sem_treino 0.01 1000 1e-6) as (Hm & _ & Hr).
  split; [apply Hm|].
  apply Hr. reflexivity.
Defined.

Lemma treinado_para_sempre_witness :
  let cs := [Prever [7];
             Treinar [0; 1; 2] [1; 2] 0 0;
             CalcularRQuadrado [1; 2] [1; 2];
             ObterMetricasModelo [0; 1] [1; 3];
             Treinar [0; 1] [2; 6] 0 0] in
  dict_vazio (coeficientes (executar_todas cs modelo_reta_1_2)) = false
  /\ exists v, prever [5] (executar_todas cs modelo_reta_1_2)
               = (executar_todas cs modelo_reta_1_2, Valor v).
Proof.
  exact (treinado_para_sempre [0; 1] [1; 3] 0 0 modelo_passo_1 modelo_reta_1_2
           (dict_coeficientes 1 2 0.5 0.5) _ [5] eq_refl).
Defined.

End Casos.

(** ** Beyond the claims *)

(** ** The engine beyond the claims *)

Section Motor.

Context {F : Type} `{Aritmetica F}.
Local Open Scope arit_scope.


Lemma difundem_dec (a b : list F) : {difundem a b} + {~ difundem a b}.
Proof.
  unfold difundem.
  destruct (decide (length a = length b)); [by left; left|].
  destruct (decide (length a = 1%nat)); [by left; right; left|].
  destruct (decide (length b = 1%nat)); [by left; right; right|].
  right. tauto.
Qed.

Lemma difundir_nao_difundem op (a b : list F) :
  ~ difundem a b -> difundir op a b = Erro (ValueError msg_broadcast).
Proof.
  intros Hd. apply difundir_erro; intros E; apply Hd; unfold difundem; auto.
Qed.

(** X1. [calcular_custo] raises [ZeroDivisionError] when [y_real] is
    empty, whatever [y_previsto] is; for [y_real] not empty it raises
    the broadcasting [ValueError] when the two shapes do not broadcast,
    and returns a cost when they do. *)
Theorem calcular_custo_casos (y_real y_previsto : list F) :
  (y_real = [] -> calcular_custo y_real y_previsto = Erro ZeroDivisionError)
  /\ (y_real <> [] -> ~ difundem y_previsto y_real ->
      calcular_custo y_real y_previsto = Erro (ValueError msg_broadcast))
  /\ (y_real <> [] -> difundem y_previsto y_real ->
      exists c, calcular_custo y_real y_previsto = Valor c).
Proof.
  split; [by intros ->|]. split.
  - intros Hy Hd. unfold calcular_custo.
    rewrite inverso_int_valor by (destruct y_real; simpl; [done|lia]).
    simpl. by rewrite difundir_nao_difundem.
  - intros Hy Hd. apply calcular_custo_valor; [done|by destruct y_real].
Qed.

(** X2. With [X] as long as [y_previsto], [calcular_gradientes] raises
    exactly when [calcular_custo] raises on the same arrays, and then
    the same exception: in the loop of [treinar] a cost that was
    computed is always followed by its gradients. *)
Theorem calcular_gradientes_como_custo (X y_real y_previsto : list F) :
  length X = length y_previsto ->
  match calcular_custo y_real y_previsto,
        calcular_gradientes X y_real y_previsto with
  | Valor _, Valor _ => True
  | Erro e, Erro e' => e = e'
  | _, _ => False
  end.
Proof.
  intros EX. destruct y_real as [|v y]; [done|].
  destruct (difundem_dec y_previsto (v :: y)) as [Hd|Hd].
  - destruct (calcular_custo_valor (v :: y) y_previsto Hd) as (c & ->); [done|].
    by destruct (calcular_gradientes_valor X (v :: y) y_previsto Hd EX)
      as (g0 & g1 & ->).
  - unfold calcular_custo, calcular_gradientes.
    rewrite !inverso_int_valor by (simpl; lia). simpl.
    by rewrite !difundir_nao_difundem.
Qed.


(** Every iteration appends at most one cost, and the first one that
    does not raise appends one. *)
Lemma laco_limite (X_norm y : list F) (n : nat) :
  forall b0 b1 (self : modelo F), exists h,
    historico_custo (laco n X_norm y b0 b1 self).1 = historico_custo self ++ h
    /\ (length h <= n)%nat
    /\ (n <> 0%nat ->
        (exists r, (laco n X_norm y b0 b1 self).2 = Valor r) -> h <> []).
Proof.
  induction n as [|n IH]; intros b0 b1 self.
  - exists []. simpl. rewrite app_nil_r. by repeat split.
  - simpl. destruct (calcular_custo y _) as [c|e].
    + destruct (calcular_gradientes X_norm y _) as [[g0 g1]|e].
      * destruct (convergiu _ _ _ _ _).
        -- exists [c]. simpl. repeat split; [lia|done].
        -- match goal with |- context [laco n _ _ ?a ?b ?s] =>
             destruct (IH a b s) as (h & Eh & Hl & _)
           end.
           exists (c :: h). rewrite Eh. simpl. rewrite <- app_assoc.
           repeat split; [lia|done].
      * exists [c]. simpl. repeat split; [lia|done].
    + exists []. simpl. rewrite app_nil_r.
      repeat split; [lia|]. by intros _ [r Hr].
Qed.

Lemma treinar_estado (X y : list F) z0 z1 (self : modelo F) :
  let l := laco (Z.to_nat (max_iteracoes self)) (normalizar X) y
                (z0 * f001) (z1 * f001) self in
  taxa_aprendizado (treinar X y z0 z1 self).1 = taxa_aprendizado self
  /\ max_iteracoes (treinar X y z0 z1 self).1 = max_iteracoes self
  /\ tolerancia (treinar X y z0 z1 self).1 = tolerancia self
  /\ historico_custo (treinar X y z0 z1 self).1 = historico_custo l.1
  /\ ((exists c, (treinar X y z0 z1 self).2 = Valor c) -> exists r, l.2 = Valor r).
Proof.
  intros l. subst l. unfold treinar.
  destruct (laco_historico (normalizar X) y (Z.to_nat (max_iteracoes self))
              (z0 * f001) (z1 * f001) self) as (h & r & -> & _).
  destruct r as [[b0 b1]|e]; simpl.
  - destruct (desnormalizar _ _ b0 b1) as [b0' b1']. simpl.
    destruct (last _); simpl; repeat split; eauto.
  - repeat split. by intros [c Hc].
Qed.

Lemma treinar_historico_limite (X y : list F) (z0 z1 : F) (self : modelo F) :
  exists h,
    historico_custo (treinar X y z0 z1 self).1 = historico_custo self ++ h
    /\ (length h <= Z.to_nat (max_iteracoes self))%nat.
Proof.
  destruct (treinar_estado X y z0 z1 self) as (_ & _ & _ & Eh & _).
  destruct (laco_limite (normalizar X) y (Z.to_nat (max_iteracoes self))
              (z0 * f001) (z1 * f001) self) as (h & El & Hl & _).
  exists h. by rewrite Eh, El.
Qed.

(** X4. A call of [treinar] never rewrites the cost history: it keeps
    the costs already there and appends at most [max_iteracoes] ones;
    and when the model allows an iteration and the call returns, it
    appended at least one. *)
Theorem treinar_historico_cresce (X y : list F) (z0 z1 : F) (self : modelo F) :
  exists h,
    historico_custo (treinar X y z0 z1 self).1 = historico_custo self ++ h
    /\ (length h <= Z.to_nat (max_iteracoes self))%nat
    /\ ((0 < max_iteracoes self)%Z ->
        (exists c, (treinar X y z0 z1 self).2 = Valor c) -> h <> []).
Proof.
  destruct (treinar_estado X y z0 z1 self) as (_ & _ & _ & Eh & Hv).
  destruct (laco_limite (normalizar X) y (Z.to_nat (max_iteracoes self))
              (z0 * f001) (z1 * f001) self) as (h & El & Hl & Hn).
  exists h. rewrite Eh, El. repeat split; [done|].
  intros Hmax Hc. apply Hn; [lia|]. by apply Hv.
Qed.

(** X3. [treinar] raises three exceptions and no other:
    [ZeroDivisionError] for an empty [y], the broadcasting [ValueError]
    for shapes that do not broadcast, both from the first iteration and
    leaving the model exactly as it was; and [IndexError], only when
    the model allows no iteration and its history is empty, the
    coefficients being stored by then. *)
Theorem treinar_excecoes
  (X y : list F) (z0 z1 : F) (self self' : modelo F) (e : excecao) :
  treinar X y z0 z1 self = (self', Erro e) ->
  (e = ZeroDivisionError /\ y = [] /\ (0 < max_iteracoes self)%Z /\ self' = self)
  \/ (e = ValueError msg_broadcast /\ y <> [] /\ ~ difundem X y
      /\ (0 < max_iteracoes self)%Z /\ self' = self)
  \/ (e = IndexError /\ (max_iteracoes self <= 0)%Z
      /\ historico_custo self = [] /\ historico_custo self' = []
      /\ dict_vazio (coeficientes self') = false).
Proof.
  unfold treinar. intros Ht.
  destruct (Z.to_nat (max_iteracoes self)) as [|n] eqn:En.
  - right; right. simpl in Ht.
    destruct (desnormalizar _ _ _ _) as [b0 b1].
    simpl in Ht. destruct (last (historico_custo self)) eqn:El; [done|].
    injection Ht as <- <-. apply last_None in El. simpl.
    split_and!; [done|lia|done|done|apply dict_vazio_coeficientes].
  - assert (Hmax : (0 < max_iteracoes self)%Z) by lia.
    destruct y as [|v y].
    + left. simpl in Ht. injection Ht as <- <-. done.
    + right; left.
      destruct (difundem_dec X (v :: y)) as [Hd|Hd].
      * exfalso.
        destruct (laco_sem_erro (normalizar X) (v :: y) (S n)) with
          (b0 := z0 * f001) (b1 := z1 * f001) (self := self)
          as (s & b0' & b1' & El & Hh);
          [by unfold difundem; rewrite length_normalizar|done|].
        rewrite El in Ht. destruct (desnormalizar _ _ b0' b1') as [b0o b1o].
        simpl in Ht. destruct (last (historico_custo s)) eqn:E1; [done|].
        apply last_None in E1. by destruct Hh.
      * rewrite laco_erro_broadcast in Ht;
          [|by unfold difundem; rewrite length_normalizar|done].
        injection Ht as <- <-. done.
Qed.

(** X5. Whatever calls are made on a model, its learning rate, its
    maximum of iterations and its tolerance never change, and its cost
    history only grows at the end, by at most [max_iteracoes] costs for
    each call of [treinar]. *)
Theorem executar_todas_invariantes (cs : list (chamada F)) (self : modelo F) :
  let self' := executar_todas cs self in
  taxa_aprendizado self' = taxa_aprendizado self
  /\ max_iteracoes self' = max_iteracoes self
  /\ tolerancia self' = tolerancia self
  /\ exists h, historico_custo self' = historico_custo self ++ h
               /\ (length h
                   <= length (filter e_treinar cs) * Z.to_nat (max_iteracoes self))%nat.
Proof.
  revert self. induction cs as [|c cs IH]; intros self; simpl.
  - repeat split. exists []. by rewrite app_nil_r.
  - destruct (IH (executar c self)) as (Et & Em & Eo & h & Eh & Hl).
    assert (Hc : taxa_aprendizado (executar c self) = taxa_aprendizado self
                 /\ max_iteracoes (executar c self) = max_iteracoes self
                 /\ tolerancia (executar c self) = tolerancia self
                 /\ exists h0, historico_custo (executar c self)
                               = historico_custo self ++ h0
                    /\ (length h0 <= (if e_treinar c then 1 else 0)
                                     * Z.to_nat (max_iteracoes self))%nat).
    { destruct c; simpl.
      - destruct (treinar_estado X y z0 z1 self) as (E1 & E2 & E3 & _).
        destruct (treinar_historico_limite X y z0 z1 self) as (h0 & E4 & H4).
        repeat split; [done..|]. exists h0. split; [done|lia].
      - rewrite prever_estado. repeat split. exists []. by rewrite app_nil_r.
      - repeat split. exists []. by rewrite app_nil_r.
      - rewrite obter_metricas_modelo_estado. repeat split.
        exists []. by rewrite app_nil_r. }
    destruct Hc as (Et' & Em' & Eo' & h0 & Eh0 & Hl0).
    unfold executar_todas in *. simpl.
    rewrite Et, Em, Eo, Et', Em', Eo'. repeat split.
    exists (h0 ++ h). rewrite Eh, Eh0, <- app_assoc. split; [done|].
    rewrite length_app. rewrite Em' in Hl.
    rewrite filter_cons. destruct (decide (e_treinar c)) as [Hc|Hc].
    + simpl. destruct (e_treinar c); [lia|done].
    + destruct (e_treinar c); [done|]. lia.
Qed.


(** X6. On a model with coefficients stored by [treinar],
    [obter_metricas_modelo] raises the broadcasting [ValueError] exactly
    when [y_real] and [X] do not broadcast, and otherwise leaves the
    model as it was and returns a dict of four entries: the value of
    [calcular_r_quadrado] on the predictions of the stored line, the
    mean squared error, the mean absolute error, and the square root of
    the mean squared error. *)
Theorem obter_metricas_modelo_treinado
  (X y_real : list F) (self : modelo F) (b0 b1 xm xs : F) :
  coeficientes self = dict_coeficientes b0 b1 xm xs ->
  (~ difundem y_real X ->
   obter_metricas_modelo X y_real self = (self, Erro (ValueError msg_broadcast)))
  /\ (difundem y_real X ->
      exists d r2 eqm eam,
        obter_metricas_modelo X y_real self = (self, Valor d)
        /\ calcular_r_quadrado y_real (reta b0 b1 X) self = (self, Valor r2)
        /\ d !! "r_quadrado" = Some r2
        /\ d !! "erro_quadratico_medio" = Some eqm
        /\ d !! "erro_absoluto_medio" = Some eam
        /\ d !! "raiz_erro_quadratico_medio" = Some (fsqrt eqm)
        /\ size d = 4%nat).
Proof.
  intros E. unfold obter_metricas_modelo.
  rewrite (prever_treinado X self b0 b1 xm xs E).
  replace (map (fun v => b0 + b1 * v) X) with (reta b0 b1 X)
    by (unfold reta; by rewrite map_map).
  unfold calcular_r_quadrado. split.
  - intros Hd. rewrite difundir_nao_difundem; [done|].
    unfold difundem in *. by rewrite length_reta.
  - intros Hd.
    destruct (difundir_valor fsub y_real (reta b0 b1 X)) as (d & Ed & _);
      [unfold difundem in *; by rewrite length_reta|].
    rewrite Ed. simpl.
    match goal with |- context [if ?c then _ else _] => destruct c end;
      simpl; eexists _, _, _, _; (split; [reflexivity|]);
      (split; [reflexivity|]); split_and!; try by simplify_map_eq.
    all: rewrite !map_size_insert_None by (by simplify_map_eq); done.
Qed.

End Motor.

Section Vocabulario.
Context {F : Type} `{Aritmetica F}.
Local Open Scope arit_scope.

(** With at least one iteration allowed, shapes that broadcast and [y]
    not empty, [treinar] returns. *)
Lemma treinar_retorna (X y : list F) (z0 z1 : F) (self : modelo F) :
  (0 < max_iteracoes self)%Z -> difundem X y -> y <> [] ->
  exists self' c, treinar X y z0 z1 self = (self', Valor c).
Proof.
  intros Hmax Hd Hy. unfold treinar.
  destruct (laco_sem_erro (normalizar X) y (Z.to_nat (max_iteracoes self)))
    with (b0 := z0 * f001) (b1 := z1 * f001) (self := self)
    as (self' & b0' & b1' & -> & Hh);
    [by unfold difundem in *; rewrite length_normalizar|by destruct y|].
  destruct (desnormalizar _ _ b0' b1') as [b0o b1o]. simpl.
  destruct (last (historico_custo self')) eqn:El; [by eauto|].
  apply last_None in El. destruct Hh; [lia|done].
Qed.

End Vocabulario.

Section NomeArquivo.

Lemma substituir_pontos_sem_sublinhado (a b : string) :
  ~ In "_"%char (list_ascii_of_string a) ->
  ~ In "_"%char (list_ascii_of_string b) ->
  substituir_pontos a = substituir_pontos b -> a = b.
Proof.
  revert b. induction a as [|c a IH]; intros [|c' b] Ha Hb E; simpl in *;
    try done.
  injection E as Ec E. f_equal.
  - destruct (Ascii.eqb c ".") eqn:E1; destruct (Ascii.eqb c' ".") eqn:E2.
    + apply Ascii.eqb_eq in E1, E2. congruence.
    + subst c'. tauto.
    + subst c. tauto.
    + done.
  - apply IH; [tauto|tauto|done].
Qed.

Lemma length_append_string (a b : string) :
  String.length (a +:+ b) = (String.length a + String.length b)%nat.
Proof. induction a as [|c a IH]; simpl; [done|]. by rewrite IH. Qed.

Lemma append_inj_r (a b t : string) : a +:+ t = b +:+ t -> a = b.
Proof.
  intros E.
  assert (El : String.length a = String.length b).
  { apply (f_equal String.length) in E. rewrite !length_append_string in E. lia. }
  revert b E El. induction a as [|c a IH]; intros [|c' b] E El; simpl in *;
    try done.
  injection E as -> E. f_equal. apply IH; [done|lia].
Qed.

Lemma substituir_pontos_idem (s : string) :
  substituir_pontos (substituir_pontos s) = substituir_pontos s.
Proof.
  induction s as [|c s IH]; simpl; [done|]. rewrite IH. f_equal.
  destruct (Ascii.eqb c ".") eqn:E; [done|]. by rewrite E.
Qed.

(** X11. The file name of [gerar_graficos] tells apart any two symbols
    that hold no underscore; in general it does not: a symbol and the
    same symbol with its dots turned into underscores, which differ
    when the symbol has a dot, get the same file. *)
Theorem nome_arquivo_colisoes :
  (forall a b,
     ~ In "_"%char (list_ascii_of_string a) ->
     ~ In "_"%char (list_ascii_of_string b) ->
     nome_arquivo a = nome_arquivo b -> a = b)
  /\ (forall s, nome_arquivo (substituir_pontos s) = nome_arquivo s)
  /\ (forall s, In "."%char (list_ascii_of_string s) -> substituir_pontos s <> s).
Proof.
  split_and!.
  - intros a b Ha Hb E. unfold nome_arquivo in E. simpl in E.
    injection E as E.
    apply (append_inj_r (substituir_pontos a) (substituir_pontos b)) in E.
    by apply substituir_pontos_sem_sublinhado.
  - intros s. unfold nome_arquivo. by rewrite substituir_pontos_idem.
  - induction s as [|c s IH]; simpl; [done|].
    intros [Hc|Hs] E; injection E as Ec E.
    + subst c. simpl in Ec. discriminate Ec.
    + by apply IH.
Qed.

End NomeArquivo.

Section Estatisticas.

Context {F : Type} `{Aritmetica F} `{Padrao F}.
Local Open Scope arit_scope.

Lemma fold_escolha_In (f : F -> F -> bool) (r : list F) (v : F) :
  In (fold_left (fun a b => if f a b then b else a) r v) (v :: r).
Proof.
  revert v. induction r as [|b r IH]; intros v; simpl; [by left|].
  destruct (IH (if f v b then b else v)) as [E|Hr].
  - rewrite <- E. destruct (f v b); auto.
  - auto.
Qed.

(** X12. When the prices hold at least one value that is not NaN, the
    minimum and the maximum of [calcular_estatisticas_descritivas] are
    prices of the series and are not NaN, while [total_dias] counts the
    NaN entries too. *)
Theorem estatisticas_sao_precos (precos_fechamento : list F) :
  validos precos_fechamento <> [] ->
  let e := calcular_estatisticas_descritivas precos_fechamento in
  In (est_minimo e) precos_fechamento
  /\ (est_minimo e =? est_minimo e) = true
  /\ In (est_maximo e) precos_fechamento
  /\ (est_maximo e =? est_maximo e) = true
  /\ (length (validos precos_fechamento) <= est_total_dias e)%nat.
Proof.
  intros Hv e. subst e. simpl. unfold pd_min, pd_max.
  assert (Hin : forall v, In v (validos precos_fechamento) ->
                          In v precos_fechamento /\ (v =? v) = true)
    by (intros v Hi; by apply filter_In in Hi).
  destruct (validos precos_fechamento) as [|v r] eqn:Ev; [done|].
  pose proof (fold_escolha_In (fun a b => b <? a) r v) as Hmin.
  pose proof (fold_escolha_In (fun a b => a <? b) r v) as Hmax.
  apply Hin in Hmin, Hmax.
  split_and!; try tauto.
  rewrite <- Ev. apply filter_length_le.
Qed.

End Estatisticas.

Section AnaliseProps.

Context {F : Type} `{Aritmetica F} `{Padrao F}.
Local Open Scope arit_scope.

Lemma treinar_valor_dict (X y : list F) z0 z1 (self self' : modelo F) c :
  treinar X y z0 z1 self = (self', Valor c) ->
  coeficientes self' = c
  /\ exists b0 b1, c = dict_coeficientes b0 b1 (np_mean X) (np_std X).
Proof.
  unfold treinar.
  destruct (laco _ _ _ _ _ self) as [s [[b0 b1]|e]]; [|done].
  destruct (desnormalizar _ _ b0 b1) as [b0' b1'].
  destruct (last _); [|done].
  intros [= <- <-]. split; [done|]. by eexists _, _.
Qed.


Lemma analisar_acao_individual_retorna
  (simbolo : string) (df : DataFrame F) (z0 z1 : F) :
  Close df <> [] ->
  exists res,
    analisar_acao_individual simbolo (Dados df) z0 z1 = Retorna res
    /\ res_dados_historicos res = df
    /\ res_coeficientes res
       = coeficientes
           (treinar (map of_int (seqZ 0 (Z.of_nat (length (Close df)))))
                    (Close df) z0 z1 novo_modelo).1
    /\ resultado_coerente simbolo res.
Proof.
  intros Hc. unfold analisar_acao_individual, buscar_dados_historicos.
  destruct (Close df) as [|p ps] eqn:Ep; [done|]. rewrite Ep. rewrite <- Ep in *.
  set (dias := seqZ 0 (Z.of_nat (length (Close df)))).
  assert (Hl : length (map of_int dias) = length (Close df)).
  { rewrite length_map. subst dias. rewrite length_seqZ. lia. }
  destruct (treinar_retorna (map of_int dias) (Close df) z0 z1 novo_modelo)
    as (self' & c & Ht); [done|by left|done|].
  rewrite Ht.
  destruct (treinar_valor_dict _ _ _ _ _ _ _ Ht) as (Ec & b0 & b1 & Ed).
  rewrite (prever_treinado (map of_int dias) self' b0 b1
             (np_mean (map of_int dias)) (np_std (map of_int dias)))
    by congruence.
  rewrite map_map.
  rewrite difundir_iguais by (rewrite length_map; subst dias; rewrite length_seqZ; lia).
  unfold calcular_r_quadrado.
  rewrite difundir_iguais by (rewrite length_map; subst dias; rewrite length_seqZ; lia).
  cbn [mbind resultado_bind].
  match goal with |- context [if ?t then _ else _] => destruct t eqn:Et end;
    eexists; (split; [reflexivity|]); (split; [reflexivity|]);
    (split; [by cbn [res_coeficientes]|]);
    unfold resultado_coerente;
    cbn [res_simbolo res_precos_fechamento res_dados_historicos res_datas
         res_dias res_estatisticas res_erro_quadratico_medio
         res_coeficiente_determinacao res_coeficientes res_previsoes];
    fold dias; split_and!; try done.
  1, 3: intros self; unfold calcular_r_quadrado;
    rewrite difundir_iguais
      by (rewrite length_map; subst dias; rewrite length_seqZ; lia);
    cbn [mbind resultado_bind]; by rewrite Et.
  all: exists b0, b1; by rewrite Ed.
Qed.

(** X14. [analisar_acao_individual] raises [Exception] with the symbol
    in its message when the fetch raised or gave no rows, and for any
    frame with rows it raises nothing: it returns the symbol, the
    prices, the days [0 .. n-1], coefficients with an intercept and a
    slope, the predictions of that line on the days, and [n] as
    [total_dias]. *)
Theorem analisar_acao_individual_casos
  (simbolo : string) (r : resposta F) (z0 z1 : F) :
  match r with
  | Falha msg =>
    analisar_acao_individual simbolo r z0 z1
    = Levanta (Exception ("Erro ao buscar dados de " +:+ simbolo +:+ ": " +:+ msg))
  | Dados df =>
    (Close df = [] ->
     analisar_acao_individual simbolo r z0 z1
     = Levanta (Exception ("Erro ao buscar dados de " +:+ simbolo +:+ ": "
                           +:+ "Nenhum dado encontrado para " +:+ simbolo)))
    /\ (Close df <> [] ->
        exists res b0 b1,
          analisar_acao_individual simbolo r z0 z1 = Retorna res
          /\ res_simbolo res = simbolo
          /\ res_precos_fechamento res = Close df
          /\ res_dias res = seqZ 0 (Z.of_nat (length (Close df)))
          /\ res_coeficientes res !! "intercepto" = Some b0
          /\ res_coeficientes res !! "inclinacao" = Some b1
          /\ res_previsoes res
             = map (fun i => b0 + b1 * of_int i) (res_dias res)
          /\ est_total_dias (res_estatisticas res) = length (Close df))
  end.
Proof.
  destruct r as [df|msg]; [|done]. split.
  - intros E. unfold analisar_acao_individual, buscar_dados_historicos.
    by rewrite E.
  - intros Hc.
    destruct (analisar_acao_individual_retorna simbolo df z0 z1 Hc)
      as (res & -> & Edf & _ & Es & Hp & Ep & Ed & Edias & Eest & _ & _
          & b0 & b1 & Eco & Epr).
    exists res, b0, b1. subst df. rewrite <- Ep, Edias, Eco, Epr, Eest.
    split_and!; done.
Qed.


(** X15. The mean squared error and the R squared that
    [analisar_acao_individual] computes by hand are the ones
    [obter_metricas_modelo] returns for the trained model on the same
    days and prices. *)
Theorem analisar_concorda_com_metricas
  (simbolo : string) (df : DataFrame F) (z0 z1 : F) :
  Close df <> [] ->
  let dias := map of_int (seqZ 0 (Z.of_nat (length (Close df)))) in
  let regressao := (treinar dias (Close df) z0 z1 novo_modelo).1 in
  exists res d,
    analisar_acao_individual simbolo (Dados df) z0 z1 = Retorna res
    /\ obter_metricas_modelo dias (Close df) regressao = (regressao, Valor d)
    /\ d !! "erro_quadratico_medio" = Some (res_erro_quadratico_medio res)
    /\ d !! "r_quadrado" = Some (res_coeficiente_determinacao res).
Proof.
  intros Hc dias regressao.
  destruct (analisar_acao_individual_retorna simbolo df z0 z1 Hc)
    as (res & Ea & Edf & Ereg & Es & Hp & Ep & Ed & Edias & Eest & Eqm & Er2
        & b0 & b1 & Eco & Epr).
  exists res. rewrite Ea. rewrite Edf in Ep. rewrite Ep in *.
  fold dias regressao in Ereg.
  assert (Hl : length dias = length (Close df))
    by (subst dias; rewrite length_map, length_seqZ; lia).
  assert (Epv : prever dias regressao = (regressao, Valor (res_previsoes res))).
  { rewrite (prever_treinado dias regressao b0 b1 _ _) by (by rewrite <- Ereg, Eco).
    rewrite Epr. unfold dias. by rewrite map_map. }
  unfold obter_metricas_modelo. rewrite Epv, Er2.
  rewrite difundir_iguais by (by rewrite Epr, length_map, length_seqZ; lia).
  cbn [mbind resultado_bind]. eexists. split; [reflexivity|].
  rewrite Eqm. split; by simplify_map_eq.
Qed.


Lemma analisar_acao_individual_levanta
  (simbolo : string) (r : resposta F) (z0 z1 : F) (res : resultado_analise F) :
  analisar_acao_individual simbolo r z0 z1 = Retorna res ->
  exists df, r = Dados df /\ Close df <> [].
Proof.
  destruct r as [df|msg]; [|done]. intros E. exists df. split; [done|].
  intros Hc. unfold analisar_acao_individual, buscar_dados_historicos in E.
  by rewrite Hc in E.
Qed.


Lemma analisar_acoes_fold (l : list (string * resposta F * (F * F))) :
  forall m0,
    (forall s, is_Some (fold_left passo_analise l m0 !! s)
               <-> is_Some (m0 !! s)
                   \/ exists df z, In (s, Dados df, z) l /\ Close df <> [])
    /\ ((forall s res, m0 !! s = Some res -> resultado_coerente s res) ->
        forall s res, fold_left passo_analise l m0 !! s = Some res ->
                      resultado_coerente s res).
Proof.
  induction l as [|[[a r] [z0 z1]] l IH]; intros m0.
  - split; [|done]. intros s. split; [by left|].
    intros [?|(df & z & [] & _)]. done.
  - cbn [fold_left]. destruct (IH (passo_analise m0 (a, r, (z0, z1)))) as [IH1 IH2].
    split.
    + intros s. rewrite IH1. unfold passo_analise.
      destruct (analisar_acao_individual a r z0 z1) as [res|e] eqn:Ea.
      * destruct (analisar_acao_individual_levanta _ _ _ _ _ Ea) as (df & -> & Hc).
        rewrite lookup_insert_is_Some. split.
        -- intros [[<-|[_ Hs]]|(df' & z & Hin & Hc')].
           ++ right. exists df, (z0, z1). split; [by left|done].
           ++ by left.
           ++ right. exists df', z. split; [by right|done].
        -- intros [Hs|(df' & z & [Hin|Hin] & Hc')].
           ++ destruct (decide (a = s)); [by left; left|by left; right].
           ++ injection Hin as -> _ _. by left; left.
           ++ right. by exists df', z.
      * split.
        -- intros [Hs|(df' & z & Hin & Hc')]; [by left|].
           right. exists df', z. split; [by right|done].
        -- intros [Hs|(df' & z & [Hin|Hin] & Hc')]; [by left| |].
           ++ injection Hin as -> -> _.
              destruct (analisar_acao_individual_retorna s df' z0 z1 Hc')
                as (res & Er & _). congruence.
           ++ right. by exists df', z.
    + intros Hm0. apply IH2. intros s res. unfold passo_analise.
      destruct (analisar_acao_individual a r z0 z1) as [res'|e] eqn:Ea; [|by apply Hm0].
      destruct (analisar_acao_individual_levanta _ _ _ _ _ Ea) as (df & -> & Hc).
      destruct (analisar_acao_individual_retorna a df z0 z1 Hc)
        as (res'' & Er & _ & _ & Hco).
      rewrite Er in Ea. injection Ea as ->.
      destruct (decide (a = s)) as [->|Hne].
      * rewrite lookup_insert_eq. by intros [= <-].
      * rewrite lookup_insert_ne by done. apply Hm0.
Qed.

Lemma analisar_acoes_passo (l : list (string * resposta F * (F * F))) :
  analisar_acoes l = fold_left passo_analise l ∅.
Proof.
  unfold analisar_acoes. f_equal.
Qed.


Lemma vazio_coerente (s : string) (res : resultado_analise F) :
  (∅ : gmap string (resultado_analise F)) !! s = Some res ->
  resultado_coerente s res.
Proof. intros E. by rewrite lookup_empty in E. Qed.

(** X16. The dict of [analisar_acoes] has a symbol as a key exactly
    when one of its fetches returned a frame with rows; and the result
    under a symbol is an analysis of that symbol, with as many
    predictions as prices, and at least one. *)
Theorem analisar_acoes_chaves
  (lista_acoes : list (string * resposta F * (F * F))) (s : string) :
  (is_Some (analisar_acoes lista_acoes !! s)
   <-> exists df z, In (s, Dados df, z) lista_acoes /\ Close df <> [])
  /\ (forall res, analisar_acoes lista_acoes !! s = Some res ->
                  res_simbolo res = s
                  /\ res_precos_fechamento res <> []
                  /\ length (res_previsoes res) = length (res_precos_fechamento res)).
Proof.
  rewrite analisar_acoes_passo.
  destruct (analisar_acoes_fold lista_acoes ∅) as [H1 H2]. split.
  - rewrite H1. split; [|by right].
    intros [Hs|?]; [|done]. rewrite lookup_empty in Hs. by destruct Hs.
  - intros res Hres.
    destruct (H2 vazio_coerente s res Hres)
      as (Es & Hp & _ & _ & _ & _ & _ & _ & b0 & b1 & _ & Epr).
    split_and!; [done..|].
    rewrite Epr, length_map, length_seqZ. lia.
Qed.

Lemma exibir_um_dict (res : resultado_analise F) (b0 b1 xm xs : F) :
  res_coeficientes res = dict_coeficientes b0 b1 xm xs ->
  let n := Z.of_nat (length (res_dias res)) in
  exibir_um res
  = Valor (if f0 <? b1 then "ALTA" else "BAIXA",
           [b0 + b1 * of_int n; b0 + b1 * of_int (n + 5);
            b0 + b1 * of_int (n + 10)]).
Proof.
  intros E n. unfold exibir_um, item.
  rewrite E, dict_coeficientes_intercepto, dict_coeficientes_inclinacao.
  cbn [mbind resultado_bind].
  rewrite (prever_treinado _ _ b0 b1 xm xs) by done.
  reflexivity.
Qed.

(** X17. On every result of [analisar_acoes] the body of the loop of
    [exibir_resultados] raises nothing: both coefficients are found,
    the trend is ALTA when [0 < inclinacao] and BAIXA otherwise (also
    for NaN), and the three predictions are those of the stored line
    at [n], [n + 5] and [n + 10], [n] the number of prices. *)
Theorem exibir_um_nunca_levanta
  (lista_acoes : list (string * resposta F * (F * F))) (s : string)
  (res : resultado_analise F) :
  analisar_acoes lista_acoes !! s = Some res ->
  exists b0 b1,
    res_coeficientes res !! "intercepto" = Some b0
    /\ res_coeficientes res !! "inclinacao" = Some b1
    /\ let n := Z.of_nat (length (res_precos_fechamento res)) in
       exibir_um res
       = Valor (if f0 <? b1 then "ALTA" else "BAIXA",
                [b0 + b1 * of_int n; b0 + b1 * of_int (n + 5);
                 b0 + b1 * of_int (n + 10)]).
Proof.
  rewrite analisar_acoes_passo. intros Hres.
  destruct (analisar_acoes_fold lista_acoes ∅) as [_ H2].
  destruct (H2 vazio_coerente s res Hres)
    as (_ & _ & _ & _ & Edias & _ & _ & _ & b0 & b1 & Eco & _).
  exists b0, b1. rewrite Eco.
  split; [apply dict_coeficientes_intercepto|].
  split; [apply dict_coeficientes_inclinacao|].
  intros n. rewrite (exibir_um_dict res b0 b1 _ _ Eco).
  rewrite Edias, length_seqZ. subst n. by rewrite Z2Nat.id by lia.
Qed.

End AnaliseProps.

(** ** The runs, against the further statements *)

Module CasosExtra.

Import Exemplos ExemplosAnalise.
#[local] Set Warnings "-inexact-float".
#[local] Open Scope float_scope.

Lemma calcular_custo_casos_witness :
  calcular_custo [] [1; 2] = Erro ZeroDivisionError
  /\ calcular_custo [1; 2] [1; 2; 3] = Erro (ValueError msg_broadcast)
  /\ exists c, calcular_custo [1; 3] [1; 2] = Valor c.
Proof.
  destruct (calcular_custo_casos (F := float) [] [1; 2]) as (H1 & _).
  destruct (calcular_custo_casos [1; 2] [1; 2; 3]) as (_ & H2 & _).
  destruct (calcular_custo_casos [1; 3] [1; 2]) as (_ & _ & H3).
  split_and!.
  - by apply H1.
  - apply H2; [done|]. unfold difundem. simpl. lia.
  - apply H3; [done|]. by left.
Defined.

Lemma calcular_gradientes_como_custo_witness :
  match calcular_custo [1; 2] [1; 2; 3],
        calcular_gradientes [0; 1; 2] [1; 2] [1; 2; 3] with
  | Valor _, Valor _ => True
  | Erro e, Erro e' => e = e'
  | _, _ => False
  end.
Proof.
  exact (calcular_gradientes_como_custo (F := float) [0; 1; 2] [1; 2] [1; 2; 3]
           eq_refl).
Defined.

Lemma treinar_excecoes_witness :
  (ValueError msg_broadcast = ZeroDivisionError /\ [1; 2] = []
   /\ (0 < max_iteracoes modelo_padrao)%Z /\ modelo_padrao = modelo_padrao)
  \/ (ValueError msg_broadcast = ValueError msg_broadcast /\ [1; 2] <> []
      /\ ~ difundem [0; 1; 2] [1; 2]
      /\ (0 < max_iteracoes modelo_padrao)%Z /\ modelo_padrao = modelo_padrao)
  \/ (ValueError msg_broadcast = IndexError
      /\ (max_iteracoes modelo_padrao <= 0)%Z
      /\ historico_custo modelo_padrao = [] /\ historico_custo modelo_padrao = []
      /\ dict_vazio (coeficientes modelo_padrao) = false).
Proof.
  exact (treinar_excecoes [0; 1; 2] [1; 2] 0.5 (-0.3) modelo_padrao modelo_padrao
           (ValueError msg_broadcast) eq_refl).
Defined.

Lemma treinar_historico_cresce_witness :
  exists h,
    historico_custo (treinar [0; 1] [1; 3] 0 0 modelo_passo_1).1 = [] ++ h
    /\ (length h <= 1000)%nat
    /\ h <> [].
Proof.
  destruct (treinar_historico_cresce [0; 1] [1; 3] 0 0 modelo_passo_1)
    as (h & Eh & Hl & Hn).
  exists h. split_and!; [exact Eh|exact Hl|].
  apply Hn; [done|]. eexists. vm_compute. reflexivity.
Defined.

Lemma obter_metricas_modelo_treinado_witness :
  obter_metricas_modelo [0; 1; 2] [1; 2] modelo_reta_1_2
  = (modelo_reta_1_2, Erro (ValueError msg_broadcast))
  /\ exists d r2 eqm eam,
       obter_metricas_modelo [0; 1; 2] [1; 3; 5] modelo_reta_1_2
       = (modelo_reta_1_2, Valor d)
       /\ calcular_r_quadrado [1; 3; 5] (reta 1 2 [0; 1; 2]) modelo_reta_1_2
          = (modelo_reta_1_2, Valor r2)
       /\ d !! "r_quadrado" = Some r2
       /\ d !! "erro_quadratico_medio" = Some eqm
       /\ d !! "erro_absoluto_medio" = Some eam
       /\ d !! "raiz_erro_quadratico_medio" = Some (fsqrt eqm)
       /\ size d = 4%nat.
Proof.
  assert (E : coeficientes modelo_reta_1_2 = dict_coeficientes 1 2 0.5 0.5)
    by (vm_compute; reflexivity).
  split.
  - apply (proj1 (obter_metricas_modelo_treinado [0; 1; 2] [1; 2]
                    modelo_reta_1_2 1 2 0.5 0.5 E)).
    unfold difundem. simpl. lia.
  - apply (proj2 (obter_metricas_modelo_treinado [0; 1; 2] [1; 3; 5]
                    modelo_reta_1_2 1 2 0.5 0.5 E)).
    by left.
Defined.

Lemma nome_arquivo_colisoes_witness :
  nome_arquivo "PETR4.SA" = "analise_PETR4_SA.png"%string
  /\ ("PETR4.SA" = "PETR4.SA")%string
  /\ nome_arquivo "PETR4_SA" = nome_arquivo "PETR4.SA"
  /\ ("PETR4_SA" <> "PETR4.SA")%string.
Proof.
  destruct nome_arquivo_colisoes as (H1 & H2 & H3).
  split_and!.
  - reflexivity.
  - apply H1; [vm_compute; intuition discriminate..|reflexivity].
  - exact (H2 "PETR4.SA"%string).
  - apply (H3 "PETR4.SA"%string). vm_compute. tauto.
Defined.

Lemma estatisticas_sao_precos_witness :
  let e := calcular_estatisticas_descritivas precos_com_nan in
  In (est_minimo e) precos_com_nan
  /\ (est_minimo e =? est_minimo e)%ar = true
  /\ In (est_maximo e) precos_com_nan
  /\ (est_maximo e =? est_maximo e)%ar = true
  /\ (length (validos precos_com_nan) <= est_total_dias e)%nat.
Proof.
  apply (estatisticas_sao_precos precos_com_nan).
  vm_compute. discriminate.
Defined.

Lemma analisar_acao_individual_casos_witness :
  exists res b0 b1,
    analisar_acao_individual "PETR4.SA" (Dados petr4) 0.5 (-0.3) = Retorna res
    /\ res_simbolo res = "PETR4.SA"%string
    /\ res_precos_fechamento res = [10; 12; 14]
    /\ res_dias res = [0; 1; 2]%Z
    /\ res_coeficientes res !! "intercepto" = Some b0
    /\ res_coeficientes res !! "inclinacao" = Some b1
    /\ res_previsoes res = map (fun i => (b0 + b1 * of_int i)%ar) (res_dias res)
    /\ est_total_dias (res_estatisticas res) = 3%nat.
Proof.
  apply (proj2 (analisar_acao_individual_casos "PETR4.SA" (Dados petr4) 0.5 (-0.3))).
  done.
Defined.

Lemma analisar_concorda_com_metricas_witness :
  let dias := map of_int [0; 1; 2]%Z in
  let regressao := (treinar dias [10; 12; 14] 0.5 (-0.3) novo_modelo).1 in
  exists res d,
    analisar_acao_individual "PETR4.SA" (Dados petr4) 0.5 (-0.3) = Retorna res
    /\ obter_metricas_modelo dias [10; 12; 14] regressao = (regressao, Valor d)
    /\ d !! "erro_quadratico_medio" = Some (res_erro_quadratico_medio res)
    /\ d !! "r_quadrado" = Some (res_coeficiente_determinacao res).
Proof.
  apply (analisar_concorda_com_metricas "PETR4.SA" petr4 0.5 (-0.3)).
  done.
Defined.

Lemma analisar_acoes_chaves_witness :
  is_Some (analisar_acoes tres_acoes !! "PETR4.SA")
  /\ ~ is_Some (analisar_acoes tres_acoes !! "BBAS3.SA")
  /\ ~ is_Some (analisar_acoes tres_acoes !! "ELET3.SA").
Proof.
  split_and!.
  - apply (proj1 (analisar_acoes_chaves tres_acoes "PETR4.SA")).
    exists petr4, (0.5, -0.3). split; [by left|done].
  - intros Hs.
    apply (proj1 (analisar_acoes_chaves tres_acoes "BBAS3.SA")) in Hs.
    destruct Hs as (df & z & Hin & Hc).
    destruct Hin as [E|[E|[E|[]]]]; try discriminate E.
  - intros Hs.
    apply (proj1 (analisar_acoes_chaves tres_acoes "ELET3.SA")) in Hs.
    destruct Hs as (df & z & Hin & Hc).
    destruct Hin as [E|[E|[E|[]]]]; try discriminate E.
    injection E as <- _. by apply Hc.
Defined.

Lemma exibir_um_nunca_levanta_witness :
  exists res b0 b1,
    analisar_acoes tres_acoes !! "PETR4.SA" = Some res
    /\ exibir_um res
       = Valor (if (f0 <? b1)%ar then "ALTA" else "BAIXA",
                [(b0 + b1 * 3)%ar; (b0 + b1 * 8)%ar; (b0 + b1 * 13)%ar]).
Proof.
  destruct (analisar_acoes tres_acoes !! "PETR4.SA") as [res|] eqn:E;
    [|by vm_compute in E].
  destruct (exibir_um_nunca_levanta tres_acoes "PETR4.SA" res E)
    as (b0 & b1 & _ & _ & Hx).
  exists res, b0, b1. split; [done|].
  assert (En : length (res_precos_fechamento res) = 3%nat)
    by (clear Hx; vm_compute in E; by injection E as <-).
  rewrite En in Hx. exact Hx.
Defined.

End CasosExtra.
